(** * Mood Tracker API: a shallow embedding of [backend/server.py]

    The service is a FastAPI application over one MongoDB collection,
    [db.mood_entries].  The embedding follows the source top-down:

    - Python values the handlers touch ([str], [int], [datetime]) and the
      library calls made on them ([isoformat], [fromisoformat], [strftime],
      [str.replace]);
    - exceptions, with the [try: ... except Exception as e:] wrapper that
      every handler shares;
    - the three pydantic models;
    - the collection, as the list of its documents in natural order, with
      the five driver calls the handlers make;
    - the handlers, written in a state-and-exception monad over the world
      (collection, clock, uuid source, storage faults);
    - the properties of the handlers.

    Strings are Rocq [string]s, read as the UTF-8 bytes of the Python text:
    every character the code inspects or inserts is ASCII, so bytewise and
    codepoint-wise processing agree. *)

From Stdlib Require Import String Ascii List ZArith NArith Bool Lia.
From Stdlib Require Import DecimalString Sorting.Sorted Sorting.Permutation.
Import ListNotations.

Local Open Scope string_scope.
Local Open Scope N_scope.

(* ================================================================== *)
(** ** Text helpers *)

(** ['%0<width>d' % n] for [n < 10 ^ width]: the [width] low decimal
    digits of [n], most significant first. *)
Definition digit_char (d : N) : ascii := ascii_of_N (48 + d).

Fixpoint zfill (width : nat) (n : N) : string :=
  match width with
  | O => EmptyString
  | S w => String (digit_char ((n / 10 ^ N.of_nat w) mod 10)) (zfill w n)
  end.

Definition digit_val (c : ascii) : option N :=
  let n := N_of_ascii c in
  if (48 <=? n) && (n <=? 57) then Some (n - 48) else None.

(** Reads exactly [width] decimal digits off the front of [s]. *)
Fixpoint read_digits (width : nat) (acc : N) (s : string) : option (N * string) :=
  match width with
  | O => Some (acc, s)
  | S w =>
      match s with
      | EmptyString => None
      | String c s' =>
          match digit_val c with
          | Some d => read_digits w (acc * 10 + d) s'
          | None => None
          end
      end
  end.

(** Consumes the literal [lit] from the front of [s]. *)
Fixpoint expect (lit s : string) : option string :=
  match lit with
  | EmptyString => Some s
  | String c lit' =>
      match s with
      | EmptyString => None
      | String c' s' => if Ascii.eqb c c' then expect lit' s' else None
      end
  end.

(** [str(n)] for a Python [int]. *)
Definition str_int (z : Z) : string := NilZero.string_of_int (Z.to_int z).

(** [s.replace(old, new)] where [old] is a single character. *)
Fixpoint replace (old : ascii) (new : string) (s : string) : string :=
  match s with
  | EmptyString => EmptyString
  | String c s' =>
      if Ascii.eqb c old then new ++ replace old new s'
      else String c (replace old new s')
  end.

(** The double quote character, code 34. *)
Definition dquote : ascii := "034"%char.

(* ================================================================== *)
(** ** [datetime] *)

(** Aware datetimes whose [tzinfo] is [timezone.utc]: the only ones the
    service builds ([datetime.now(timezone.utc)]). *)
Module datetime.

Record t := make {
  year : N; month : N; day : N;
  hour : N; minute : N; second : N; microsecond : N
}.

Definition is_leap (y : N) : bool :=
  ((y mod 4 =? 0) && negb (y mod 100 =? 0)) || (y mod 400 =? 0).

Definition days_in_month (y m : N) : N :=
  if m =? 2 then (if is_leap y then 29 else 28)
  else if (m =? 4) || (m =? 6) || (m =? 9) || (m =? 11) then 30
  else 31.

(** The range checks of the [datetime] constructor. *)
Definition valid (d : t) : bool :=
  (1 <=? year d) && (year d <=? 9999) &&
  (1 <=? month d) && (month d <=? 12) &&
  (1 <=? day d) && (day d <=? days_in_month (year d) (month d)) &&
  (hour d <? 24) && (minute d <? 60) && (second d <? 60) &&
  (microsecond d <? 1000000).

(** Comparison of two aware datetimes with the same [tzinfo]: the base
    datetimes are compared field by field. *)
Definition lex (c : comparison) (k : comparison) : comparison :=
  match c with Eq => k | _ => c end.

Definition compare (a b : t) : comparison :=
  lex (year a ?= year b)
 (lex (month a ?= month b)
 (lex (day a ?= day b)
 (lex (hour a ?= hour b)
 (lex (minute a ?= minute b)
 (lex (second a ?= second b)
      (microsecond a ?= microsecond b)))))).

Definition leb (a b : t) : bool :=
  match compare a b with Gt => false | _ => true end.

(** The fractional part is left out when [microsecond] is zero. *)
Definition fraction (us : N) : string :=
  if us =? 0 then EmptyString else "." ++ zfill 6 us.

Definition isoformat (d : t) : string :=
  zfill 4 (year d) ++ "-" ++ zfill 2 (month d) ++ "-" ++ zfill 2 (day d)
  ++ "T" ++ zfill 2 (hour d) ++ ":" ++ zfill 2 (minute d) ++ ":"
  ++ zfill 2 (second d) ++ fraction (microsecond d) ++ "+00:00".

(** [strftime('%Y%m%d')]. *)
Definition strftime_Ymd (d : t) : string :=
  zfill 4 (year d) ++ zfill 2 (month d) ++ zfill 2 (day d).

Definition read_fraction (s : string) : option (N * string) :=
  match s with
  | String "." s' => read_digits 6 0 s'
  | _ => Some (0, s)
  end.

(** [datetime.fromisoformat], on the texts [isoformat] produces for UTC
    datetimes (all the service ever writes); [None] stands for the
    [ValueError] raised on a text that does not parse. *)
Definition fromisoformat (s : string) : option t :=
  match read_digits 4 0 s with None => None | Some (y, s) =>
  match expect "-" s with None => None | Some s =>
  match read_digits 2 0 s with None => None | Some (mo, s) =>
  match expect "-" s with None => None | Some s =>
  match read_digits 2 0 s with None => None | Some (d, s) =>
  match expect "T" s with None => None | Some s =>
  match read_digits 2 0 s with None => None | Some (h, s) =>
  match expect ":" s with None => None | Some s =>
  match read_digits 2 0 s with None => None | Some (mi, s) =>
  match expect ":" s with None => None | Some s =>
  match read_digits 2 0 s with None => None | Some (sec, s) =>
  match read_fraction s with None => None | Some (us, s) =>
  match expect "+00:00" s with None => None | Some s =>
  match s with
  | EmptyString =>
      let r := make y mo d h mi sec us in
      if valid r then Some r else None
  | _ => None
  end end end end end end end end end end end end end end.

End datetime.

(* ================================================================== *)
(** ** Exceptions and HTTP responses *)

Inductive exn : Type :=
| HTTPException (status_code : N) (detail : string)
| ValidationError (model field : string)
| AttributeError (msg : string)
| ValueError (msg : string)
| PyMongoError (msg : string).

Definition str_N (n : N) : string := NilZero.string_of_uint (N.to_uint n).

(** [str(e)].  Starlette prints an [HTTPException] as [status: detail];
    pydantic's report of a failed field is abbreviated to its first lines. *)
Definition str_exn (e : exn) : string :=
  match e with
  | HTTPException status_code detail => str_N status_code ++ ": " ++ detail
  | ValidationError model field =>
      "1 validation error for " ++ model ++ String "010" field
  | AttributeError msg => msg
  | ValueError msg => msg
  | PyMongoError msg => msg
  end.

Inductive outcome (A : Type) : Type :=
| Returns (a : A)
| Raises (e : exn).
Arguments Returns {A} a.
Arguments Raises {A} e.

(** What the client receives: the body with status 200, or a status and a
    detail text. *)
Inductive response (A : Type) : Type :=
| OK (body : A)
| Failed (status_code : N) (detail : string).
Arguments OK {A} body.
Arguments Failed {A} status_code detail.

Definition status {A} (r : response A) : N :=
  match r with OK _ => 200 | Failed status_code _ => status_code end.

(* ================================================================== *)
(** ** The pydantic models *)

(** [notes: Optional[str]] is [option string], [None] being Python's
    [None] (JSON [null]). *)
Module MoodEntryCreate.
Record t := make {
  mood : Z; mood_emoji : string; notes : option string; date : string
}.
End MoodEntryCreate.

Module MoodEntry.
Record t := make {
  id : string; mood : Z; mood_emoji : string; notes : option string;
  date : string; timestamp : datetime.t
}.
End MoodEntry.

Module MoodEntryResponse.
Record t := make {
  id : string; mood : Z; mood_emoji : string; notes : string;
  date : string; timestamp : datetime.t
}.

(** The constructor, called on a dict with the keys of a [MoodEntry]:
    [notes: str] refuses [None]; keys the model does not declare are
    ignored. *)
Definition validate (d : MoodEntry.t) : outcome t :=
  match MoodEntry.notes d with
  | Some text =>
      Returns (make (MoodEntry.id d) (MoodEntry.mood d)
                    (MoodEntry.mood_emoji d) text (MoodEntry.date d)
                    (MoodEntry.timestamp d))
  | None => Raises (ValidationError "MoodEntryResponse" "notes")
  end.
End MoodEntryResponse.

(** A JSON request body, field by field: a key is absent, [null], or
    carries a value of the declared type.  [extra] holds the keys no model
    field is named after. *)
Inductive field (A : Type) : Type :=
| Absent
| Null
| Value (a : A).
Arguments Absent {A}.
Arguments Null {A}.
Arguments Value {A} a.

Module Body.
Record t := make {
  mood : field Z; mood_emoji : field string; notes : field string;
  date : field string; extra : list (string * string)
}.
End Body.

(** Structural validation of the body against [MoodEntryCreate]: [mood],
    [mood_emoji] and [date] are required and not nullable; [notes]
    defaults to the empty string and accepts [null]; [extra] is dropped.
    [None] is the 422 answer FastAPI gives before the handler runs. *)
Definition parse_body (b : Body.t) : option MoodEntryCreate.t :=
  match Body.mood b, Body.mood_emoji b, Body.date b with
  | Value m, Value e, Value d =>
      let n := match Body.notes b with
               | Absent => Some EmptyString
               | Null => None
               | Value text => Some text
               end in
      Some (MoodEntryCreate.make m e n d)
  | _, _, _ => None
  end.

(* ================================================================== *)
(** ** The collection [db.mood_entries] *)

(** A stored document.  The [_id] key the driver adds is left out: no
    handler reads it and the response model ignores it. *)
Module Document.
Record t := make {
  id : string; mood : Z; mood_emoji : string; notes : option string;
  date : string; timestamp : string
}.
End Document.

Definition option_eqb {A} (eqb : A -> A -> bool) (x y : option A) : bool :=
  match x, y with
  | Some a, Some b => eqb a b
  | None, None => true
  | _, _ => false
  end.

(** The payload of [$set] in [update_mood_entry]: the four fields of the
    request and the new timestamp. *)
Module SetFields.
Record t := make {
  mood : Z; mood_emoji : string; notes : option string; date : string;
  timestamp : string
}.

Definition apply (u : t) (d : Document.t) : Document.t :=
  Document.make (Document.id d) (mood u) (mood_emoji u) (notes u) (date u)
                (timestamp u).

(** Whether [$set] changes nothing in [d]. *)
Definition noop (u : t) (d : Document.t) : bool :=
  Z.eqb (mood u) (Document.mood d)
  && String.eqb (mood_emoji u) (Document.mood_emoji d)
  && option_eqb String.eqb (notes u) (Document.notes d)
  && String.eqb (date u) (Document.date d)
  && String.eqb (timestamp u) (Document.timestamp d).
End SetFields.

(** The collection is the list of its documents in natural order, which
    is insertion order; an update rewrites a document in place.  The
    functions below are the driver calls on a working connection. *)
Module Collection.

Definition t := list Document.t.

Definition insert_one (doc : Document.t) (c : t) : t := (c ++ [doc])%list.

(** [find_one(filter)]: the first match in natural order. *)
Definition find_one (filter : Document.t -> bool) (c : t) : option Document.t :=
  List.find filter c.

(** [update_one(filter, set u)]: rewrites the first match; the
    count is [modified_count], 0 when nothing matched or when the
    matched document already held these values. *)
Fixpoint update_one (filter : Document.t -> bool) (u : SetFields.t) (c : t)
  : t * N :=
  match c with
  | [] => ([], 0)
  | d :: c' =>
      if filter d then
        (SetFields.apply u d :: c', if SetFields.noop u d then 0 else 1)
      else
        let (c'', n) := update_one filter u c' in (d :: c'', n)
  end.

(** [delete_one(filter)]: removes the first match; the count is
    [deleted_count]. *)
Fixpoint delete_one (filter : Document.t -> bool) (c : t) : t * N :=
  match c with
  | [] => ([], 0)
  | d :: c' =>
      if filter d then (c', 1)
      else let (c'', n) := delete_one filter c' in (d :: c'', n)
  end.

Fixpoint insert_sorted (le : Document.t -> Document.t -> bool)
         (d : Document.t) (c : t) : t :=
  match c with
  | [] => [d]
  | d' :: c' => if le d d' then d :: c else d' :: insert_sorted le d c'
  end.

(** [find().sort(key, direction).to_list(None)]: every document, ordered
    by the byte order of the key; documents with equal keys keep their
    natural order. *)
Definition sorted (le : Document.t -> Document.t -> bool) (c : t) : t :=
  List.fold_right (insert_sorted le) [] c.

Definition by_timestamp_desc (a b : Document.t) : bool :=
  String.leb (Document.timestamp b) (Document.timestamp a).

Definition by_date_asc (a b : Document.t) : bool :=
  String.leb (Document.date a) (Document.date b).

Definition id_is (mood_id : string) (d : Document.t) : bool :=
  String.eqb (Document.id d) mood_id.

Definition date_is (date : string) (d : Document.t) : bool :=
  String.eqb (Document.date d) date.

End Collection.

(* ================================================================== *)
(** ** The world a request runs in *)

Definition ObjectId := nat.

(** The collection, and the three things the handlers draw from outside:
    the clock ([clock k] is the [k]-th reading of
    [datetime.now(timezone.utc)]), the uuid source ([uuid4 k] is the text
    of the [k]-th [uuid.uuid4()]) and the connection ([outage k] is the
    error the [k]-th driver call dies with, if any).  The counters say how
    many readings, draws and calls were made so far. *)
Record World := mkWorld {
  mood_entries : Collection.t;
  next_oid : ObjectId;
  clock : nat -> datetime.t;
  ticks : nat;
  uuid4 : nat -> string;
  draws : nat;
  outage : nat -> option string;
  calls : nat
}.

(** Computations that read and write the world and may raise. *)
Definition M (A : Type) : Type := World -> outcome A * World.

Definition ret {A} (a : A) : M A := fun w => (Returns a, w).

Definition raise {A} (e : exn) : M A := fun w => (Raises e, w).

Definition bind {A B} (m : M A) (k : A -> M B) : M B :=
  fun w =>
    match m w with
    | (Returns a, w') => k a w'
    | (Raises e, w') => (Raises e, w')
    end.

Definition lift {A} (o : outcome A) : M A := fun w => (o, w).

Notation "x <- m ;; k" := (bind m (fun x => k))
  (at level 61, m at next level, right associativity).

(** [[f(x) for x in xs]] for an [f] that may raise: left to right, the
    first exception ends the comprehension. *)
Fixpoint comprehension {A B} (f : A -> outcome B) (xs : list A)
  : outcome (list B) :=
  match xs with
  | [] => Returns []
  | x :: xs' =>
      match f x with
      | Raises e => Raises e
      | Returns y =>
          match comprehension f xs' with
          | Raises e => Raises e
          | Returns ys => Returns (y :: ys)
          end
      end
  end.

Definition datetime_now : M datetime.t :=
  fun w =>
    (Returns (clock w (ticks w)),
     mkWorld (mood_entries w) (next_oid w) (clock w) (S (ticks w))
             (uuid4 w) (draws w) (outage w) (calls w)).

Definition str_uuid4 : M string :=
  fun w =>
    (Returns (uuid4 w (draws w)),
     mkWorld (mood_entries w) (next_oid w) (clock w) (ticks w)
             (uuid4 w) (S (draws w)) (outage w) (calls w)).

(** One awaited driver call: it raises and leaves the collection alone
    when the call fails (a lost connection, a document the driver
    refuses), and runs [call] otherwise. *)
Definition driver {A} (call : Collection.t -> Collection.t * A) : M A :=
  fun w =>
    match outage w (calls w) with
    | Some msg =>
        (Raises (PyMongoError msg),
         mkWorld (mood_entries w) (next_oid w) (clock w) (ticks w)
                 (uuid4 w) (draws w) (outage w) (S (calls w)))
    | None =>
        let (c, a) := call (mood_entries w) in
        (Returns a,
         mkWorld c (next_oid w) (clock w) (ticks w)
                 (uuid4 w) (draws w) (outage w) (S (calls w)))
    end.

(** [insert_one] answers with the [_id] it gave the document. *)
Definition insert_one (doc : Document.t) : M ObjectId :=
  fun w =>
    match driver (fun c => (Collection.insert_one doc c, next_oid w)) w with
    | (Returns oid, w') =>
        (Returns oid,
         mkWorld (mood_entries w') (S (next_oid w')) (clock w') (ticks w')
                 (uuid4 w') (draws w') (outage w') (calls w'))
    | r => r
    end.

Definition find_sorted (le : Document.t -> Document.t -> bool)
  : M (list Document.t) :=
  driver (fun c => (c, Collection.sorted le c)).

Definition find_one (filter : Document.t -> bool) : M (option Document.t) :=
  driver (fun c => (c, Collection.find_one filter c)).

Definition update_one (filter : Document.t -> bool) (u : SetFields.t) : M N :=
  driver (Collection.update_one filter u).

Definition delete_one (filter : Document.t -> bool) : M N :=
  driver (Collection.delete_one filter).

(** An [ObjectId] has no [__bool__] and no [__len__]: it is truthy. *)
Definition truthy (oid : ObjectId) : bool := true.

(* ================================================================== *)
(** ** [server.py] *)

(** The call of the [MoodEntry] constructor on the dict of a
    [MoodEntryCreate]: the four fields come from the dict, [id] and
    [timestamp] from their default factories. *)
Definition new_MoodEntry (mood_dict : MoodEntryCreate.t) : M MoodEntry.t :=
  id <- str_uuid4 ;;
  timestamp <- datetime_now ;;
  ret (MoodEntry.make id (MoodEntryCreate.mood mood_dict)
                      (MoodEntryCreate.mood_emoji mood_dict)
                      (MoodEntryCreate.notes mood_dict)
                      (MoodEntryCreate.date mood_dict) timestamp).

Definition prepare_for_mongo (data : MoodEntry.t) : Document.t :=
  Document.make (MoodEntry.id data) (MoodEntry.mood data)
                (MoodEntry.mood_emoji data) (MoodEntry.notes data)
                (MoodEntry.date data)
                (datetime.isoformat (MoodEntry.timestamp data)).

Definition parse_from_mongo (item : Document.t) : outcome MoodEntry.t :=
  match datetime.fromisoformat (Document.timestamp item) with
  | Some timestamp =>
      Returns (MoodEntry.make (Document.id item) (Document.mood item)
                              (Document.mood_emoji item) (Document.notes item)
                              (Document.date item) timestamp)
  | None =>
      Raises (ValueError ("Invalid isoformat string: "
                          ++ Document.timestamp item))
  end.

(** [except Exception as e: raise HTTPException(status_code=500,
    detail=str(e))], the clause every handler ends with.  [HTTPException]
    is itself an [Exception], so the clause also catches the ones raised
    inside the [try]. *)
Definition except_Exception {A} (body : M A) : M A :=
  fun w =>
    match body w with
    | (Raises e, w') => (Raises (HTTPException 500 (str_exn e)), w')
    | r => r
    end.

(** FastAPI's answer to what a handler returns or raises. *)
Definition respond {A} (handler : M A) (w : World) : response A * World :=
  match handler w with
  | (Returns a, w') => (OK a, w')
  | (Raises (HTTPException status_code detail), w') =>
      (Failed status_code detail, w')
  | (Raises _, w') => (Failed 500 "Internal Server Error", w')
  end.

Definition create_mood_entry (mood_data : MoodEntryCreate.t)
  : M MoodEntryResponse.t :=
  except_Exception (
    let mood_dict := mood_data in
    mood_obj <- new_MoodEntry mood_dict ;;
    let mood_dict := prepare_for_mongo mood_obj in
    inserted_id <- insert_one mood_dict ;;
    if truthy inserted_id then
      lift (MoodEntryResponse.validate mood_obj)
    else
      raise (HTTPException 500 "Failed to create mood entry")).

Definition get_mood_entries : M (list MoodEntryResponse.t) :=
  except_Exception (
    moods <- find_sorted Collection.by_timestamp_desc ;;
    parsed_moods <- lift (comprehension parse_from_mongo moods) ;;
    lift (comprehension MoodEntryResponse.validate parsed_moods)).

Definition get_mood_by_date (date : string) : M (option MoodEntryResponse.t) :=
  except_Exception (
    mood <- find_one (Collection.date_is date) ;;
    match mood with
    | Some mood =>
        parsed_mood <- lift (parse_from_mongo mood) ;;
        r <- lift (MoodEntryResponse.validate parsed_mood) ;;
        ret (Some r)
    | None => ret None
    end).

Definition not_found {A} : M A :=
  raise (HTTPException 404 "Mood entry not found").

Definition update_mood_entry (mood_id : string) (mood_data : MoodEntryCreate.t)
  : M MoodEntryResponse.t :=
  except_Exception (
    now <- datetime_now ;;
    let mood_dict :=
      SetFields.make (MoodEntryCreate.mood mood_data)
                     (MoodEntryCreate.mood_emoji mood_data)
                     (MoodEntryCreate.notes mood_data)
                     (MoodEntryCreate.date mood_data)
                     (datetime.isoformat now) in
    modified_count <- update_one (Collection.id_is mood_id) mood_dict ;;
    if modified_count =? 1 then
      updated_mood <- find_one (Collection.id_is mood_id) ;;
      match updated_mood with
      | Some updated_mood =>
          parsed_mood <- lift (parse_from_mongo updated_mood) ;;
          lift (MoodEntryResponse.validate parsed_mood)
      | None => not_found
      end
    else not_found).

Definition delete_mood_entry (mood_id : string) : M string :=
  except_Exception (
    deleted_count <- delete_one (Collection.id_is mood_id) ;;
    if deleted_count =? 1 then ret "Mood entry deleted successfully"
    else not_found).

Definition quoted (s : string) : string :=
  String dquote s ++ String dquote EmptyString.

Definition newline : string := String "010" EmptyString.

(** One turn of the loop of [export_moods_csv]: the line added for
    [mood].  [mood.get('notes', '')] is [None] for a stored [null], and
    [None] has no [replace]. *)
Definition csv_line (mood : Document.t) : outcome string :=
  match Document.notes mood with
  | None =>
      Raises (AttributeError "'NoneType' object has no attribute 'replace'")
  | Some text =>
      let notes := replace dquote (String dquote (String dquote EmptyString)) text in
      Returns (quoted (Document.date mood) ++ "," ++
               str_int (Document.mood mood) ++ "," ++
               quoted (Document.mood_emoji mood) ++ "," ++
               quoted notes ++ "," ++
               quoted (Document.timestamp mood) ++ newline)
  end.

Fixpoint csv_loop (moods : list Document.t) (csv_content : string)
  : outcome string :=
  match moods with
  | [] => Returns csv_content
  | mood :: rest =>
      match csv_line mood with
      | Returns line => csv_loop rest (csv_content ++ line)
      | Raises e => Raises e
      end
  end.

Definition csv_header : string := "Date,Mood,Emoji,Notes,Timestamp" ++ newline.

Module CsvExport.
Record t := make { content : string; filename : string }.
End CsvExport.

Definition export_moods_csv : M CsvExport.t :=
  except_Exception (
    moods <- find_sorted Collection.by_date_asc ;;
    csv_content <- lift (csv_loop moods csv_header) ;;
    now <- datetime_now ;;
    ret (CsvExport.make csv_content
           ("mood_data_" ++ datetime.strftime_Ymd now ++ ".csv"))).

(** The routes, and one request served: the world it leaves behind. *)
Inductive Request : Type :=
| POST_moods (body : Body.t)
| GET_moods
| GET_moods_date (date : string)
| PUT_moods (mood_id : string) (body : Body.t)
| DELETE_moods (mood_id : string)
| GET_moods_export_csv.

Definition serve (r : Request) (w : World) : World :=
  match r with
  | POST_moods body =>
      match parse_body body with
      | Some mood_data => snd (respond (create_mood_entry mood_data) w)
      | None => w
      end
  | GET_moods => snd (respond get_mood_entries w)
  | GET_moods_date date => snd (respond (get_mood_by_date date) w)
  | PUT_moods mood_id body =>
      match parse_body body with
      | Some mood_data => snd (respond (update_mood_entry mood_id mood_data) w)
      | None => w
      end
  | DELETE_moods mood_id => snd (respond (delete_mood_entry mood_id) w)
  | GET_moods_export_csv => snd (respond export_moods_csv w)
  end.

(** The worlds the service can be in: it starts on an empty collection
    and serves requests one after the other. *)
Inductive reachable (w0 : World) : World -> Prop :=
| reachable_start : reachable w0 w0
| reachable_serve w r : reachable w0 w -> reachable w0 (serve r w).

(* ================================================================== *)
(** ** Vocabulary of the properties *)

(** The ids of the stored entries, and the ids the service has handed out
    since it started. *)
Definition ids (w : World) : list string :=
  List.map Document.id (mood_entries w).

Definition assigned (w : World) : list string :=
  List.map (uuid4 w) (List.seq 0 (draws w)).

(** The uuid source never repeats itself: the idealisation of
    [uuid.uuid4()] under which an id can be called unique. *)
Definition collision_free (w : World) : Prop :=
  forall i j : nat, uuid4 w i = uuid4 w j -> i = j.

(** The clock only shows datetimes that exist. *)
Definition sound_clock (w : World) : Prop :=
  forall k : nat, datetime.valid (clock w k) = true.

(** A stored timestamp is the [isoformat] of a datetime. *)
Definition stamped (d : Document.t) : Prop :=
  exists ts, datetime.valid ts = true /\
             Document.timestamp d = datetime.isoformat ts.

(** Most recent first. *)
Definition not_older (a b : MoodEntryResponse.t) : Prop :=
  datetime.leb (MoodEntryResponse.timestamp b) (MoodEntryResponse.timestamp a)
  = true.

Definition date_not_after (a b : Document.t) : Prop :=
  String.leb (Document.date a) (Document.date b) = true.

(** The line [export_moods_csv] writes for an entry whose notes are
    [text]. *)
Definition exported_line (d : Document.t) (text : string) : string :=
  quoted (Document.date d) ++ "," ++ str_int (Document.mood d) ++ ","
  ++ quoted (Document.mood_emoji d) ++ ","
  ++ quoted (replace dquote (String dquote (String dquote EmptyString)) text)
  ++ "," ++ quoted (Document.timestamp d) ++ newline.

(** The CSV field and line as the specification words them: every field
    wrapped in double quotes, the double quotes inside it doubled. *)
Definition specified_field (s : string) : string :=
  quoted (replace dquote (String dquote (String dquote EmptyString)) s).

Definition specified_line (d : Document.t) (text : string) : string :=
  specified_field (Document.date d) ++ ","
  ++ specified_field (str_int (Document.mood d)) ++ ","
  ++ specified_field (Document.mood_emoji d) ++ ","
  ++ specified_field text ++ ","
  ++ specified_field (Document.timestamp d) ++ newline.

(** Un-escaping a CSV field: inside the wrapping quotes, a doubled quote
    stands for one quote and a single one is malformed. *)
Fixpoint collapse (s : string) : option string :=
  match s with
  | EmptyString => Some EmptyString
  | String c s' =>
      if Ascii.eqb c dquote then
        match s' with
        | String c' s'' =>
            if Ascii.eqb c' dquote then option_map (String dquote) (collapse s'')
            else None
        | EmptyString => None
        end
      else option_map (String c) (collapse s')
  end.

(** [s] without its last character, and that character. *)
Fixpoint split_last (s : string) : option (string * ascii) :=
  match s with
  | EmptyString => None
  | String c s' =>
      match split_last s' with
      | None => Some (EmptyString, c)
      | Some (init, last) => Some (String c init, last)
      end
  end.

Definition unquote (field : string) : option string :=
  match field with
  | String c rest =>
      if Ascii.eqb c dquote then
        match split_last rest with
        | Some (inner, last) =>
            if Ascii.eqb last dquote then collapse inner else None
        | None => None
        end
      else None
  | EmptyString => None
  end.

(** A text, from its lines (each with its newline). *)
Definition text_of (lines : list string) : string :=
  List.fold_right String.append EmptyString lines.

(** How [export_moods_csv] writes an entry: the line for its notes. *)
Definition written_as (d : Document.t) (line : string) : Prop :=
  exists text, Document.notes d = Some text /\ line = exported_line d text.

(** How a stored document appears in a response: its timestamp read back
    as the datetime it was printed from, its notes as text. *)
Definition presents (d : Document.t) (r : MoodEntryResponse.t) : Prop :=
  exists ts text,
    datetime.valid ts = true /\
    Document.timestamp d = datetime.isoformat ts /\
    Document.notes d = Some text /\
    r = MoodEntryResponse.make (Document.id d) (Document.mood d)
                               (Document.mood_emoji d) text (Document.date d) ts.

(** The document [create_mood_entry] stores for a payload, in world [w]. *)
Definition created (w : World) (mood_data : MoodEntryCreate.t) : Document.t :=
  Document.make (uuid4 w (draws w))
                (MoodEntryCreate.mood mood_data)
                (MoodEntryCreate.mood_emoji mood_data)
                (MoodEntryCreate.notes mood_data)
                (MoodEntryCreate.date mood_data)
                (datetime.isoformat (clock w (ticks w))).

(** The ids in the collection are pairwise distinct and were all handed
    out by the uuid source. *)
Definition ids_in_order (w : World) : Prop :=
  NoDup (ids w) /\ incl (ids w) (assigned w).

(** The timestamp of [d] is a reading the service took of its clock
    between its start in [w0] and now, in [w]: the [k]-th reading, for a
    [k] from the count of [w0] up to the count of [w]. *)
Definition read_off_clock (w0 w : World) (d : Document.t) : Prop :=
  exists k : nat,
    (ticks w0 <= k)%nat /\ (k < ticks w)%nat /\
    datetime.valid (clock w0 k) = true /\
    Document.timestamp d = datetime.isoformat (clock w0 k).

(** [line] is the line of entry [d] in the export, and its fourth field
    is the notes of [d] between double quotes, every double quote inside
    them doubled: a field that un-escapes to the notes. *)
Definition notes_escaped (d : Document.t) (line : string) : Prop :=
  exists text field,
    Document.notes d = Some text /\
    line = quoted (Document.date d) ++ "," ++ str_int (Document.mood d) ++ ","
           ++ quoted (Document.mood_emoji d) ++ "," ++ field ++ ","
           ++ quoted (Document.timestamp d) ++ newline /\
    field = specified_field text /\
    unquote field = Some text.

(* ================================================================== *)
(** ** Worlds to run the handlers in *)

Definition new_year : datetime.t := datetime.make 2025 1 1 12 0 0 0.

(** [k] strokes: a uuid source that never repeats itself. *)
Fixpoint tally (k : nat) : string :=
  match k with
  | O => EmptyString
  | S k' => String "|" (tally k')
  end.

(** A service that has just started: empty collection, working
    connection. *)
Definition fresh : World :=
  mkWorld [] 0%nat (fun _ => new_year) 0%nat
          (fun k => "entry-" ++ tally k) 0%nat (fun _ => None) 0%nat.

Definition great_day : Body.t :=
  Body.make (Value 5%Z) (Value ":-)") (Value "great day") (Value "2025-01-01") [].

Definition no_notes : Body.t :=
  Body.make (Value 3%Z) (Value ":-|") Null (Value "2025-01-02")
            [("id", "mine"); ("timestamp", "1999-12-31T00:00:00+00:00")].

Definition out_of_range : Body.t :=
  Body.make (Value 10%Z) (Value ":-D") Absent (Value "2025-01-03") [].

Definition after_great_day : World := serve (POST_moods great_day) fresh.

Definition after_no_notes : World := serve (POST_moods no_notes) fresh.

Definition quoted_emoji : Body.t :=
  Body.make (Value 2%Z) (Value (":" ++ String dquote ")")) (Value "so-so")
            (Value "2025-01-05") [].

Definition after_quoted_emoji : World := serve (POST_moods quoted_emoji) fresh.

Definition she_said : Body.t :=
  Body.make (Value 4%Z) (Value ":-)") (Value ("she said " ++ quoted "hi"))
            (Value "2025-01-06") [].

Definition after_she_said : World := serve (POST_moods she_said) after_great_day.

(** A stored entry written strictly before [now]. *)
Definition earlier_than (now : datetime.t) (d : Document.t) : Prop :=
  exists ts, datetime.valid ts = true /\
             Document.timestamp d = datetime.isoformat ts /\
             datetime.compare ts now = Lt.

(** The response [create_mood_entry] gives for a payload with notes
    [text], in world [w]. *)
Definition answered (w : World) (mood_data : MoodEntryCreate.t) (text : string)
  : MoodEntryResponse.t :=
  MoodEntryResponse.make (uuid4 w (draws w))
                         (MoodEntryCreate.mood mood_data)
                         (MoodEntryCreate.mood_emoji mood_data)
                         text
                         (MoodEntryCreate.date mood_data)
                         (clock w (ticks w)).

(** [w] on another connection. *)
Definition reconnected (o : nat -> option string) (w : World) : World :=
  mkWorld (mood_entries w) (next_oid w) (clock w) (ticks w)
          (uuid4 w) (draws w) o (calls w).

(** A connection that is down, and one that drops at its [k]-th call. *)
Definition down : nat -> option string := fun _ => Some "connection refused".

Definition drops_at (k : nat) : nat -> option string :=
  fun i => if Nat.eqb i k then Some "connection lost" else None.

(** A service whose clock advances by a second at every reading. *)
Definition ticking : World :=
  mkWorld [] 0%nat (fun k => datetime.make 2025 1 1 12 0 (N.of_nat k) 0) 0%nat
          (fun k => "entry-" ++ tally k) 0%nat (fun _ => None) 0%nat.

Definition rainy_day : MoodEntryCreate.t :=
  MoodEntryCreate.make 2 ":-(" (Some "rain") "2025-01-02".

Definition speechless : MoodEntryCreate.t :=
  MoodEntryCreate.make 1 ":-(" None "2025-01-02".

(** The world after a Create whose insert went through, and after one
    more driver call on collection [c]. *)
Definition after_create (w : World) (mood_data : MoodEntryCreate.t) : World :=
  mkWorld (mood_entries w ++ [created w mood_data])%list (S (next_oid w))
          (clock w) (S (ticks w)) (uuid4 w) (S (draws w)) (outage w) (S (calls w)).

Definition after_call (c : Collection.t) (w : World) : World :=
  mkWorld c (next_oid w) (clock w) (ticks w) (uuid4 w) (draws w) (outage w)
          (S (calls w)).

(* ================================================================== *)
(** ** Tactics *)

(** Splits on every comparison of the goal and leaves the arithmetic to
    [lia]. *)
Ltac by_compare_spec :=
  repeat match goal with
         | |- context [?a ?= ?b] => destruct (N.compare_spec a b)
         end;
  try reflexivity; try lia.

(** Unfolds a handler down to the driver calls, in a hypothesis or in the
    goal, and walks through the world it leaves. *)
Ltac unfold_handler H :=
  unfold respond, create_mood_entry, get_mood_entries, get_mood_by_date,
    update_mood_entry, delete_mood_entry, export_moods_csv, new_MoodEntry,
    except_Exception, bind, ret, raise, lift, not_found, datetime_now, str_uuid4,
    insert_one, find_sorted, find_one, update_one, delete_one, driver, truthy in H.

Ltac step H :=
  cbn [fst snd mood_entries next_oid clock ticks uuid4 draws outage calls] in H.

Ltac run :=
  unfold respond, create_mood_entry, get_mood_entries, get_mood_by_date,
    update_mood_entry, delete_mood_entry, export_moods_csv, new_MoodEntry,
    except_Exception, bind, ret, raise, lift, not_found, datetime_now, str_uuid4,
    insert_one, find_sorted, find_one, update_one, delete_one, driver, truthy;
  cbn [fst snd mood_entries next_oid clock ticks uuid4 draws outage calls].

Ltac walk :=
  cbn [fst snd mood_entries next_oid clock ticks uuid4 draws outage calls status].

(* ================================================================== *)
(** * Properties *)

(** ** Decimal fields *)

Lemma digit_val_digit_char (d : N) :
  d < 10 -> digit_val (digit_char d) = Some d.
Proof.
  intros H. unfold digit_val, digit_char.
  rewrite N_ascii_embedding by lia.
  replace (48 <=? 48 + d) with true by (symmetry; apply N.leb_le; lia).
  replace (48 + d <=? 57) with true by (symmetry; apply N.leb_le; lia).
  cbn [andb]. f_equal. lia.
Qed.

Lemma pow10_succ (w : nat) : 10 ^ N.of_nat (S w) = 10 ^ N.of_nat w * 10.
Proof. rewrite Nat2N.inj_succ, N.pow_succ_r'. apply N.mul_comm. Qed.

Lemma pow10_pos (w : nat) : 0 < 10 ^ N.of_nat w.
Proof. apply N.neq_0_lt_0, N.pow_nonzero. discriminate. Qed.

(** The low [S w] digits of [n] are its digit of rank [w] and its low
    [w] digits. *)
Lemma mod_pow10_succ (w : nat) (n : N) :
  n mod 10 ^ N.of_nat (S w) =
  n mod 10 ^ N.of_nat w + 10 ^ N.of_nat w * ((n / 10 ^ N.of_nat w) mod 10).
Proof. rewrite pow10_succ. apply N.Div0.mod_mul_r. Qed.

Lemma read_digits_zfill (w : nat) : forall (acc n : N) (rest : string),
  read_digits w acc (zfill w n ++ rest) =
  Some (acc * 10 ^ N.of_nat w + n mod 10 ^ N.of_nat w, rest).
Proof.
  induction w as [|w IH]; intros acc n rest.
  - cbn [zfill read_digits append N.of_nat]. rewrite N.mod_1_r.
    f_equal. f_equal. lia.
  - cbn [zfill read_digits append].
    rewrite digit_val_digit_char by (apply N.mod_lt; discriminate).
    rewrite IH, mod_pow10_succ, pow10_succ. f_equal. f_equal. lia.
Qed.

Lemma ascii_compare_digit_char (a b : N) :
  a < 10 -> b < 10 ->
  Ascii.compare (digit_char a) (digit_char b) = (a ?= b).
Proof.
  intros Ha Hb. unfold Ascii.compare, digit_char.
  rewrite !N_ascii_embedding by lia. by_compare_spec.
Qed.

(** Two fields of the same width compare as the numbers they print, and
    the texts after them decide between equal fields. *)
Lemma compare_zfill (w : nat) : forall (a b : N) (r1 r2 : string),
  String.compare (zfill w a ++ r1) (zfill w b ++ r2) =
  datetime.lex (a mod 10 ^ N.of_nat w ?= b mod 10 ^ N.of_nat w)
               (String.compare r1 r2).
Proof.
  induction w as [|w IH]; intros a b r1 r2.
  - cbn [zfill append N.of_nat]. rewrite !N.mod_1_r. reflexivity.
  - cbn [zfill append String.compare].
    rewrite ascii_compare_digit_char by (apply N.mod_lt; discriminate).
    rewrite IH, !mod_pow10_succ.
    pose proof (pow10_pos w) as HP.
    pose proof (N.mod_lt a (10 ^ N.of_nat w)) as Ha.
    pose proof (N.mod_lt b (10 ^ N.of_nat w)) as Hb.
    set (P := 10 ^ N.of_nat w) in *.
    set (la := a mod P) in *. set (lb := b mod P) in *.
    set (qa := (a / P) mod 10). set (qb := (b / P) mod 10).
    assert (la < P) by (apply Ha; lia). assert (lb < P) by (apply Hb; lia).
    clearbody P la lb qa qb. clear Ha Hb.
    destruct (N.compare_spec qa qb) as [E|L|G]; unfold datetime.lex.
    + subst qb. destruct (N.compare_spec la lb);
        destruct (N.compare_spec (la + P * qa) (lb + P * qa)); try reflexivity; lia.
    + destruct (N.compare_spec (la + P * qa) (lb + P * qb)); try reflexivity; nia.
    + destruct (N.compare_spec (la + P * qa) (lb + P * qb)); try reflexivity; nia.
Qed.

Lemma compare_same_head (c : ascii) (r1 r2 : string) :
  String.compare (String c r1) (String c r2) = String.compare r1 r2.
Proof.
  cbn [String.compare]. unfold Ascii.compare. rewrite N.compare_refl. reflexivity.
Qed.

Lemma string_compare_refl (s : string) : String.compare s s = Eq.
Proof. induction s as [|c s IH]; [reflexivity|]. rewrite compare_same_head. exact IH. Qed.

(** ** [isoformat] and [fromisoformat] *)

Lemma days_in_month_le (y m : N) : datetime.days_in_month y m <= 31.
Proof.
  unfold datetime.days_in_month.
  destruct (m =? 2); [destruct (datetime.is_leap y); lia|].
  destruct ((m =? 4) || (m =? 6) || (m =? 9) || (m =? 11))%bool; lia.
Qed.

Lemma valid_bounds (d : datetime.t) :
  datetime.valid d = true ->
  datetime.year d < 10000 /\ datetime.month d < 100 /\ datetime.day d < 100 /\
  datetime.hour d < 100 /\ datetime.minute d < 100 /\ datetime.second d < 100 /\
  datetime.microsecond d < 1000000.
Proof.
  unfold datetime.valid. rewrite !andb_true_iff.
  rewrite !N.leb_le, !N.ltb_lt.
  pose proof (days_in_month_le (datetime.year d) (datetime.month d)).
  lia.
Qed.

Lemma expect_char (c : ascii) (s : string) :
  expect (String c EmptyString) (String c s) = Some s.
Proof. cbn [expect]. rewrite Ascii.eqb_refl. reflexivity. Qed.

Lemma fraction_read (us : N) :
  us < 1000000 ->
  datetime.read_fraction (datetime.fraction us ++ "+00:00") =
  Some (us, "+00:00").
Proof.
  intros H. unfold datetime.fraction.
  destruct (N.eqb_spec us 0) as [->|_]; [reflexivity|].
  cbn [append datetime.read_fraction].
  rewrite read_digits_zfill. rewrite N.mod_small by exact H. reflexivity.
Qed.

(** Parsing what [isoformat] printed gives the datetime back. *)
Lemma fromisoformat_isoformat (d : datetime.t) :
  datetime.valid d = true ->
  datetime.fromisoformat (datetime.isoformat d) = Some d.
Proof.
  intros V. pose proof (valid_bounds d V) as (Hy & Hmo & Hd & Hh & Hmi & Hs & Hus).
  unfold datetime.fromisoformat, datetime.isoformat.
  repeat (rewrite read_digits_zfill; rewrite N.mod_small by assumption;
          rewrite N.mul_0_l, N.add_0_l; cbn [append];
          try rewrite expect_char).
  rewrite fraction_read by exact Hus.
  change (expect "+00:00" "+00:00") with (Some EmptyString).
  destruct d; cbn [datetime.year datetime.month datetime.day datetime.hour
                   datetime.minute datetime.second datetime.microsecond] in *.
  cbv zeta. rewrite V. reflexivity.
Qed.

Lemma lex_Eq_r (c : comparison) : datetime.lex c Eq = c.
Proof. destruct c; reflexivity. Qed.

Lemma compare_fraction (ua ub : N) :
  ua < 1000000 -> ub < 1000000 ->
  String.compare (datetime.fraction ua ++ "+00:00")
                 (datetime.fraction ub ++ "+00:00") = (ua ?= ub).
Proof.
  intros Ha Hb. unfold datetime.fraction.
  destruct (N.eqb_spec ua 0) as [->|Na]; destruct (N.eqb_spec ub 0) as [->|Nb].
  - reflexivity.
  - destruct ub; [contradiction|reflexivity].
  - destruct ua; [contradiction|reflexivity].
  - cbn [append]. rewrite compare_same_head, compare_zfill.
    rewrite !N.mod_small by assumption.
    rewrite string_compare_refl. apply lex_Eq_r.
Qed.

(** The byte order of the stored texts is the order of the instants. *)
Lemma compare_isoformat (a b : datetime.t) :
  datetime.valid a = true -> datetime.valid b = true ->
  String.compare (datetime.isoformat a) (datetime.isoformat b) =
  datetime.compare a b.
Proof.
  intros Va Vb.
  pose proof (valid_bounds a Va) as (? & ? & ? & ? & ? & ? & ?).
  pose proof (valid_bounds b Vb) as (? & ? & ? & ? & ? & ? & ?).
  unfold datetime.isoformat, datetime.compare.
  repeat (rewrite compare_zfill; rewrite !N.mod_small by assumption;
          f_equal; cbn [append]; try rewrite compare_same_head).
  apply compare_fraction; assumption.
Qed.

(** ** Byte order on strings *)

Lemma string_leb_trans (s1 s2 s3 : string) :
  String.leb s1 s2 = true -> String.leb s2 s3 = true -> String.leb s1 s3 = true.
Proof.
  unfold String.leb. revert s2 s3.
  induction s1 as [|c1 s1 IH]; intros [|c2 s2] [|c3 s3]; cbn [String.compare];
    try reflexivity; try discriminate.
  unfold Ascii.compare.
  destruct (N.compare_spec (N_of_ascii c1) (N_of_ascii c2)) as [E12|L12|G12];
    destruct (N.compare_spec (N_of_ascii c2) (N_of_ascii c3)) as [E23|L23|G23];
    destruct (N.compare_spec (N_of_ascii c1) (N_of_ascii c3)) as [E13|L13|G13];
    try reflexivity; try discriminate; try lia.
  apply IH.
Qed.

Lemma string_leb_flip (s1 s2 : string) :
  String.leb s1 s2 = false -> String.leb s2 s1 = true.
Proof.
  intros H. destruct (String.leb_total s1 s2) as [T|T]; [congruence|exact T].
Qed.

(** ** The driver calls *)

Section Sorting.

Variable le : Document.t -> Document.t -> bool.
Hypothesis le_flip : forall a b, le a b = false -> le b a = true.
Hypothesis le_trans : forall a b c, le a b = true -> le b c = true -> le a c = true.

Let R (a b : Document.t) : Prop := le a b = true.

Lemma insert_sorted_perm (d : Document.t) (c : Collection.t) :
  Permutation (Collection.insert_sorted le d c) (d :: c).
Proof.
  induction c as [|d' c IH]; cbn [Collection.insert_sorted].
  - apply Permutation_refl.
  - destruct (le d d').
    + apply Permutation_refl.
    + eapply perm_trans; [apply perm_skip, IH | apply perm_swap].
Qed.

Lemma sorted_perm (c : Collection.t) : Permutation (Collection.sorted le c) c.
Proof.
  induction c as [|d c IH]; cbn [Collection.sorted fold_right].
  - apply perm_nil.
  - eapply perm_trans; [apply insert_sorted_perm | apply perm_skip, IH].
Qed.

Lemma insert_sorted_ordered (d : Document.t) (c : Collection.t) :
  StronglySorted R c -> StronglySorted R (Collection.insert_sorted le d c).
Proof.
  induction 1 as [|d' c S IH F]; cbn [Collection.insert_sorted].
  - repeat constructor.
  - destruct (le d d') eqn:E.
    + constructor; [constructor; assumption|].
      constructor; [exact E|].
      eapply Forall_impl; [|exact F]. intros x Hx. eapply le_trans; eassumption.
    + constructor; [exact IH|].
      eapply Permutation_Forall; [apply Permutation_sym, insert_sorted_perm|].
      constructor; [apply le_flip, E | exact F].
Qed.

Lemma sorted_ordered (c : Collection.t) : StronglySorted R (Collection.sorted le c).
Proof.
  induction c as [|d c IH]; cbn [Collection.sorted fold_right].
  - constructor.
  - apply insert_sorted_ordered, IH.
Qed.

End Sorting.

Lemma update_one_miss (filter : Document.t -> bool) (u : SetFields.t) (c : Collection.t) :
  (forall d, In d c -> filter d = false) ->
  Collection.update_one filter u c = (c, 0).
Proof.
  induction c as [|d c IH]; intros H; cbn [Collection.update_one].
  - reflexivity.
  - rewrite (H d) by (left; reflexivity).
    rewrite IH by (intros x Hx; apply H; right; exact Hx). reflexivity.
Qed.

(** A modified count of 1 pins the update down: the first match, and it
    alone, was rewritten. *)
Lemma update_one_modified (filter : Document.t -> bool) (u : SetFields.t) :
  forall (c c' : Collection.t),
  Collection.update_one filter u c = (c', 1) ->
  exists before old after,
    c = (before ++ old :: after)%list /\
    c' = (before ++ SetFields.apply u old :: after)%list /\
    (forall d, In d before -> filter d = false) /\
    filter old = true.
Proof.
  induction c as [|d c IH]; intros c' H; cbn [Collection.update_one] in H.
  - discriminate.
  - destruct (filter d) eqn:F.
    + injection H as <- _. exists [], d, c. repeat split; try assumption.
      intros x [].
    + destruct (Collection.update_one filter u c) as [c'' n] eqn:E.
      injection H as <- ->.
      destruct (IH c'' eq_refl) as (before & old & after & -> & -> & Hb & Ho).
      exists (d :: before), old, after. repeat split; try assumption.
      intros x [<-|Hx]; [exact F | apply Hb, Hx].
Qed.

Lemma find_first_match (filter : Document.t -> bool) (before after : Collection.t)
      (d : Document.t) :
  (forall x, In x before -> filter x = false) -> filter d = true ->
  Collection.find_one filter (before ++ d :: after)%list = Some d.
Proof.
  intros Hb Hd. unfold Collection.find_one.
  induction before as [|x before IH]; cbn [app find].
  - rewrite Hd. reflexivity.
  - rewrite (Hb x) by (left; reflexivity).
    apply IH. intros y Hy. apply Hb. right. exact Hy.
Qed.

(** C8.  When Update answers with an entry, the collection held an entry
    with that id; the first such entry now carries the mood, emoji, notes
    and date of the payload and the [isoformat] of the clock reading, under
    the id it had; the entries before and after it are as they were; and
    the answer is that entry, its timestamp being the clock reading. *)
Theorem update_success (w w' : World) (mood_id : string)
        (mood_data : MoodEntryCreate.t) (r : MoodEntryResponse.t) :
  datetime.valid (clock w (ticks w)) = true ->
  respond (update_mood_entry mood_id mood_data) w = (OK r, w') ->
  exists before old after text,
    mood_entries w = (before ++ old :: after)%list /\
    (forall d, In d before -> Document.id d <> mood_id) /\
    Document.id old = mood_id /\
    MoodEntryCreate.notes mood_data = Some text /\
    mood_entries w' =
      (before ++
       Document.make (Document.id old)
                     (MoodEntryCreate.mood mood_data)
                     (MoodEntryCreate.mood_emoji mood_data)
                     (MoodEntryCreate.notes mood_data)
                     (MoodEntryCreate.date mood_data)
                     (datetime.isoformat (clock w (ticks w)))
       :: after)%list /\
    r = MoodEntryResponse.make (Document.id old)
                               (MoodEntryCreate.mood mood_data)
                               (MoodEntryCreate.mood_emoji mood_data)
                               text
                               (MoodEntryCreate.date mood_data)
                               (clock w (ticks w)).
Proof.
  intros V H. unfold_handler H. step H.
  destruct (outage w (calls w)) as [msg|]; step H; [discriminate|].
  destruct (Collection.update_one _ _ (mood_entries w)) as [c n] eqn:U. step H.
  destruct (N.eqb_spec n 1) as [->|_]; step H; [|discriminate].
  destruct (outage w (S (calls w))) as [msg|]; step H; [discriminate|].
  destruct (update_one_modified _ _ _ _ U) as (before & old & after & Hw & -> & Hb & Ho).
  rewrite find_first_match in H by assumption.
  unfold parse_from_mongo in H.
  cbn [SetFields.apply SetFields.timestamp Document.timestamp] in H.
  rewrite fromisoformat_isoformat in H by exact V.
  unfold MoodEntryResponse.validate in H.
  cbn [MoodEntry.notes Document.notes SetFields.notes SetFields.mood
       SetFields.mood_emoji SetFields.date Document.id Document.mood
       Document.mood_emoji Document.date MoodEntry.id MoodEntry.mood
       MoodEntry.mood_emoji MoodEntry.date MoodEntry.timestamp] in H.
  destruct (MoodEntryCreate.notes mood_data) as [text|] eqn:Hn; step H;
    [|discriminate].
  injection H as <- <-.
  apply String.eqb_eq in Ho.
  exists before, old, after, text. repeat split; try assumption.
  - intros d Hd E. apply Hb in Hd. unfold Collection.id_is in Hd.
    apply String.eqb_neq in Hd. contradiction.
Qed.

Lemma delete_one_miss (filter : Document.t -> bool) (c : Collection.t) :
  (forall d, In d c -> filter d = false) ->
  Collection.delete_one filter c = (c, 0).
Proof.
  induction c as [|d c IH]; intros H; cbn [Collection.delete_one].
  - reflexivity.
  - rewrite (H d) by (left; reflexivity).
    rewrite IH by (intros x Hx; apply H; right; exact Hx). reflexivity.
Qed.

Lemma delete_one_hit (filter : Document.t -> bool) (before after : Collection.t)
      (d : Document.t) :
  (forall x, In x before -> filter x = false) -> filter d = true ->
  Collection.delete_one filter (before ++ d :: after)%list =
  ((before ++ after)%list, 1).
Proof.
  intros Hb Hd.
  induction before as [|x before IH]; cbn [app Collection.delete_one].
  - rewrite Hd. reflexivity.
  - rewrite (Hb x) by (left; reflexivity).
    rewrite IH by (intros y Hy; apply Hb; right; exact Hy). reflexivity.
Qed.

Lemma id_is_false (mood_id : string) (c : Collection.t) :
  (forall d, In d c -> Document.id d <> mood_id) ->
  forall d, In d c -> Collection.id_is mood_id d = false.
Proof.
  intros H d Hd. unfold Collection.id_is. apply String.eqb_neq, H, Hd.
Qed.

(** ** What the handlers answer *)

(** C1.  Updating an id that no stored entry carries leaves the collection
    as it was, but the answer is not the 404 the handler raises: the
    [except Exception] clause catches that [HTTPException] and the client
    receives status 500, with the detail [404: Mood entry not found] when
    the connection works. *)
Theorem update_unknown_id_answers_500 (w : World) (mood_id : string)
        (mood_data : MoodEntryCreate.t) :
  (forall d, In d (mood_entries w) -> Document.id d <> mood_id) ->
  let answer := respond (update_mood_entry mood_id mood_data) w in
  status (fst answer) = 500 /\
  mood_entries (snd answer) = mood_entries w /\
  (outage w (calls w) = None ->
   fst answer = Failed 500 "404: Mood entry not found").
Proof.
  intros H answer. subst answer. run.
  destruct (outage w (calls w)) as [msg|]; walk.
  - repeat split. discriminate.
  - rewrite update_one_miss by (apply id_is_false, H). walk.
    repeat split.
Qed.

Lemma update_unknown_id_answers_500_witness :
  status (fst (respond (update_mood_entry "entry-||"
                          (MoodEntryCreate.make 4 ":-)" (Some "fine") "2025-01-04"))
                       after_great_day)) = 500 /\
  mood_entries (snd (respond (update_mood_entry "entry-||"
                          (MoodEntryCreate.make 4 ":-)" (Some "fine") "2025-01-04"))
                       after_great_day)) = mood_entries after_great_day /\
  (outage after_great_day (calls after_great_day) = None ->
   fst (respond (update_mood_entry "entry-||"
                          (MoodEntryCreate.make 4 ":-)" (Some "fine") "2025-01-04"))
                       after_great_day) = Failed 500 "404: Mood entry not found").
Proof.
  apply (update_unknown_id_answers_500 after_great_day "entry-||"
           (MoodEntryCreate.make 4 ":-)" (Some "fine") "2025-01-04")).
  intros d [<-|[]]. vm_compute. discriminate.
Defined.

(** C2.  Deleting an id that no stored entry carries removes nothing, and
    here too the 404 the handler raises reaches the client as status 500,
    with the detail [404: Mood entry not found] when the connection
    works. *)
Theorem delete_unknown_id_answers_500 (w : World) (mood_id : string) :
  (forall d, In d (mood_entries w) -> Document.id d <> mood_id) ->
  let answer := respond (delete_mood_entry mood_id) w in
  status (fst answer) = 500 /\
  mood_entries (snd answer) = mood_entries w /\
  (outage w (calls w) = None ->
   fst answer = Failed 500 "404: Mood entry not found").
Proof.
  intros H answer. subst answer. run.
  destruct (outage w (calls w)) as [msg|]; walk.
  - repeat split. discriminate.
  - rewrite delete_one_miss by (apply id_is_false, H). walk.
    repeat split.
Qed.

Lemma delete_unknown_id_answers_500_witness :
  status (fst (respond (delete_mood_entry "entry-||") after_great_day)) = 500 /\
  mood_entries (snd (respond (delete_mood_entry "entry-||") after_great_day))
    = mood_entries after_great_day /\
  (outage after_great_day (calls after_great_day) = None ->
   fst (respond (delete_mood_entry "entry-||") after_great_day)
     = Failed 500 "404: Mood entry not found").
Proof.
  apply (delete_unknown_id_answers_500 after_great_day "entry-||").
  intros d [<-|[]]. vm_compute. discriminate.
Defined.

(** Deleting the id of a stored entry removes the first entry with that
    id, and nothing else, and answers with the confirmation message. *)
Theorem delete_stored_id (w : World) (before after : Collection.t)
        (d : Document.t) :
  outage w (calls w) = None ->
  mood_entries w = (before ++ d :: after)%list ->
  (forall x, In x before -> Document.id x <> Document.id d) ->
  let answer := respond (delete_mood_entry (Document.id d)) w in
  fst answer = OK "Mood entry deleted successfully" /\
  mood_entries (snd answer) = (before ++ after)%list.
Proof.
  intros Hup Hw Hb answer. subst answer. run. rewrite Hup, Hw.
  rewrite delete_one_hit.
  - walk. split; reflexivity.
  - apply id_is_false, Hb.
  - apply String.eqb_refl.
Qed.

Lemma delete_stored_id_witness :
  fst (respond (delete_mood_entry "entry-") after_great_day)
    = OK "Mood entry deleted successfully" /\
  mood_entries (snd (respond (delete_mood_entry "entry-") after_great_day)) = [].
Proof.
  apply (delete_stored_id after_great_day [] []
           (Document.make "entry-" 5 ":-)" (Some "great day") "2025-01-01"
                          "2025-01-01T12:00:00+00:00")).
  - reflexivity.
  - reflexivity.
  - intros x [].
Defined.

(** Neither handler ever answers 404: whatever the [try] block raises
    leaves as a 500. *)
Theorem no_handler_answers_404 (w : World) (mood_id : string)
        (mood_data : MoodEntryCreate.t) :
  (status (fst (respond (update_mood_entry mood_id mood_data) w)) =? 404) = false /\
  (status (fst (respond (delete_mood_entry mood_id) w)) =? 404) = false.
Proof.
  split.
  - unfold update_mood_entry, respond, except_Exception.
    destruct (bind _ _ w) as [[r|e] w']; reflexivity.
  - unfold delete_mood_entry, respond, except_Exception.
    destruct (bind _ _ w) as [[r|e] w']; reflexivity.
Qed.

(** ** The CSV export *)

Lemma append_assoc (a b c : string) : (a ++ b) ++ c = a ++ (b ++ c).
Proof. induction a as [|x a IH]; cbn [append]; [reflexivity | rewrite IH; reflexivity]. Qed.

Lemma append_nil_r (a : string) : a ++ EmptyString = a.
Proof. induction a as [|x a IH]; cbn [append]; [reflexivity | rewrite IH; reflexivity]. Qed.

Lemma csv_line_some (d : Document.t) (text : string) :
  Document.notes d = Some text -> csv_line d = Returns (exported_line d text).
Proof. intros H. unfold csv_line. rewrite H. reflexivity. Qed.

(** The loop writes one line per entry, in the order it is given them. *)
Lemma csv_loop_lines (moods : list Document.t) :
  Forall (fun d => Document.notes d <> None) moods ->
  exists lines,
    Forall2 written_as moods lines /\
    forall csv_content,
      csv_loop moods csv_content = Returns (csv_content ++ text_of lines).
Proof.
  induction 1 as [|d moods Hd _ (lines & F & L)].
  - exists []. split; [constructor|]. intros acc. cbn. rewrite append_nil_r. reflexivity.
  - destruct (Document.notes d) as [text|] eqn:N; [|contradiction].
    exists (exported_line d text :: lines). split.
    + constructor; [exists text; split; [exact N | reflexivity] | exact F].
    + intros acc. cbn [csv_loop text_of fold_right].
      rewrite (csv_line_some d text N), L, append_assoc. reflexivity.
Qed.

Lemma date_order_flip (a b : Document.t) :
  Collection.by_date_asc a b = false -> Collection.by_date_asc b a = true.
Proof. apply string_leb_flip. Qed.

Lemma date_order_trans (a b c : Document.t) :
  Collection.by_date_asc a b = true -> Collection.by_date_asc b c = true ->
  Collection.by_date_asc a c = true.
Proof. apply string_leb_trans. Qed.

(** C3, as the code has it.  On a collection whose entries all carry
    notes, and with a working connection, the export answers with the
    header line followed by one line per entry, the entries taken by
    ascending date; a line holds the date, the emoji, the notes and the
    timestamp each between double quotes and the mood as a bare number,
    and only the notes have their double quotes doubled.  The file name
    carries the day of the export.  An empty collection gives the header
    alone. *)
Theorem export_moods_csv_content (w : World) :
  outage w (calls w) = None ->
  Forall (fun d => Document.notes d <> None) (mood_entries w) ->
  exists moods lines,
    Permutation moods (mood_entries w) /\
    StronglySorted date_not_after moods /\
    Forall2 written_as moods lines /\
    (mood_entries w = [] -> lines = []) /\
    fst (respond export_moods_csv w) =
      OK (CsvExport.make
            (csv_header ++ text_of lines)
            ("mood_data_" ++ datetime.strftime_Ymd (clock w (ticks w)) ++ ".csv")).
Proof.
  intros Hup Hnotes.
  pose proof (sorted_perm Collection.by_date_asc (mood_entries w)) as P.
  pose proof (sorted_ordered Collection.by_date_asc date_order_flip date_order_trans
                             (mood_entries w)) as S.
  destruct (csv_loop_lines (Collection.sorted Collection.by_date_asc (mood_entries w)))
    as (lines & F & L).
  { eapply Permutation_Forall; [apply Permutation_sym, P | exact Hnotes]. }
  exists (Collection.sorted Collection.by_date_asc (mood_entries w)), lines.
  repeat split; try assumption.
  - intros E. rewrite E in F. inversion F. reflexivity.
  - run. rewrite Hup. walk. rewrite L. reflexivity.
Qed.

Lemma export_moods_csv_content_witness :
  exists moods lines,
    Permutation moods (mood_entries after_great_day) /\
    StronglySorted date_not_after moods /\
    Forall2 written_as moods lines /\
    (mood_entries after_great_day = [] -> lines = []) /\
    fst (respond export_moods_csv after_great_day) =
      OK (CsvExport.make
            (csv_header ++ text_of lines)
            ("mood_data_"
             ++ datetime.strftime_Ymd (clock after_great_day (ticks after_great_day))
             ++ ".csv")).
Proof.
  apply (export_moods_csv_content after_great_day).
  - reflexivity.
  - vm_compute. constructor; [discriminate | constructor].
Defined.

(** C3, as the specification words it, fails on an entry of mood 2 whose
    emoji holds a double quote: the export writes the mood without quotes
    around it and the emoji with its quote as it is, where the
    specification has every field quoted and every inner quote doubled. *)
Lemma export_does_not_quote_every_field :
  exists d text,
    mood_entries after_quoted_emoji = [d] /\
    Document.notes d = Some text /\
    fst (respond export_moods_csv after_quoted_emoji) =
      OK (CsvExport.make
            (csv_header
             ++ quoted "2025-01-05" ++ "," ++ "2" ++ ","
             ++ quoted (":" ++ String dquote ")") ++ ","
             ++ quoted "so-so" ++ ","
             ++ quoted "2025-01-01T12:00:00+00:00" ++ newline)
            "mood_data_20250101.csv") /\
    specified_line d text =
      quoted "2025-01-05" ++ "," ++ quoted "2" ++ ","
      ++ quoted (":" ++ String dquote (String dquote ")")) ++ ","
      ++ quoted "so-so" ++ ","
      ++ quoted "2025-01-01T12:00:00+00:00" ++ newline /\
    String.eqb (exported_line d text) (specified_line d text) = false.
Proof.
  eexists. eexists. split; [vm_compute; reflexivity|].
  repeat split; vm_compute; reflexivity.
Qed.

(** ** Escaping the notes *)

Lemma split_last_snoc (s : string) (c : ascii) :
  split_last (s ++ String c EmptyString) = Some (s, c).
Proof.
  induction s as [|x s IH]; cbn [append split_last].
  - reflexivity.
  - rewrite IH. reflexivity.
Qed.

Lemma collapse_replace (text : string) :
  collapse (replace dquote (String dquote (String dquote EmptyString)) text)
  = Some text.
Proof.
  induction text as [|c text IH]; cbn [replace].
  - reflexivity.
  - destruct (Ascii.eqb c dquote) eqn:E.
    + apply Ascii.eqb_eq in E. subst c.
      cbn [append collapse]. rewrite Ascii.eqb_refl, IH. reflexivity.
    + cbn [collapse]. rewrite E, IH. reflexivity.
Qed.

Lemma unquote_specified_field (text : string) :
  unquote (specified_field text) = Some text.
Proof.
  unfold specified_field, quoted, unquote. cbn [append].
  rewrite Ascii.eqb_refl, split_last_snoc, Ascii.eqb_refl.
  apply collapse_replace.
Qed.

Lemma written_as_escaped (d : Document.t) (line : string) :
  written_as d line -> notes_escaped d line.
Proof.
  intros (text & N & ->). exists text, (specified_field text).
  repeat split; [exact N | apply unquote_specified_field].
Qed.

(** C9.  With a working connection and a collection whose entries all
    carry notes, the CSV text the export answers with is the header
    followed by one line per stored entry, the entries taken by ascending
    date; in the line of each entry the notes field is the notes between
    double quotes with every double quote inside them doubled, and
    un-escaping that field (stripping the wrapping quotes, collapsing the
    doubled ones) gives the notes back.  This holds for all notes, those
    with a double quote among them. *)
Theorem notes_field_round_trip (w : World) :
  outage w (calls w) = None ->
  Forall (fun d => Document.notes d <> None) (mood_entries w) ->
  exists moods lines filename,
    fst (respond export_moods_csv w) =
      OK (CsvExport.make (csv_header ++ text_of lines) filename) /\
    Permutation moods (mood_entries w) /\
    StronglySorted date_not_after moods /\
    Forall2 notes_escaped moods lines.
Proof.
  intros Hup Hnotes.
  destruct (csv_loop_lines (Collection.sorted Collection.by_date_asc (mood_entries w)))
    as (lines & F & L).
  { eapply Permutation_Forall;
      [apply Permutation_sym, sorted_perm | exact Hnotes]. }
  exists (Collection.sorted Collection.by_date_asc (mood_entries w)), lines.
  eexists. split; [|split; [|split]].
  - run. rewrite Hup. walk. rewrite L. reflexivity.
  - apply sorted_perm.
  - apply (sorted_ordered Collection.by_date_asc date_order_flip date_order_trans).
  - revert F. apply Forall2_impl. exact written_as_escaped.
Qed.

Lemma notes_field_round_trip_witness :
  exists moods lines filename,
    fst (respond export_moods_csv after_she_said) =
      OK (CsvExport.make (csv_header ++ text_of lines) filename) /\
    Permutation moods (mood_entries after_she_said) /\
    StronglySorted date_not_after moods /\
    Forall2 notes_escaped moods lines.
Proof.
  apply (notes_field_round_trip after_she_said).
  - reflexivity.
  - vm_compute. repeat constructor; discriminate.
Defined.

(** ** Creating an entry *)

(** C10.  A body whose notes are an explicit null passes validation; the
    entry is inserted; then the response model refuses the null and the
    client receives status 500, the entry staying in the collection. *)
Theorem create_null_notes_persists_then_fails (w : World) (m : Z)
        (e d : string) (extra : list (string * string)) :
  outage w (calls w) = None ->
  exists mood_data,
    parse_body (Body.make (Value m) (Value e) Null (Value d) extra)
      = Some mood_data /\
    mood_data = MoodEntryCreate.make m e None d /\
    fst (respond (create_mood_entry mood_data) w) =
      Failed 500 (str_exn (ValidationError "MoodEntryResponse" "notes")) /\
    mood_entries (snd (respond (create_mood_entry mood_data) w)) =
      (mood_entries w ++ [created w mood_data])%list.
Proof.
  intros Hup. exists (MoodEntryCreate.make m e None d).
  repeat split; run; rewrite Hup; reflexivity.
Qed.

Lemma create_null_notes_persists_then_fails_witness :
  exists mood_data,
    parse_body (Body.make (Value 3%Z) (Value ":-|") Null (Value "2025-01-02") [])
      = Some mood_data /\
    mood_data = MoodEntryCreate.make 3 ":-|" None "2025-01-02" /\
    fst (respond (create_mood_entry mood_data) fresh) =
      Failed 500 (str_exn (ValidationError "MoodEntryResponse" "notes")) /\
    mood_entries (snd (respond (create_mood_entry mood_data) fresh)) =
      (mood_entries fresh ++ [created fresh mood_data])%list.
Proof.
  apply (create_null_notes_persists_then_fails fresh 3 ":-|" "2025-01-02" []).
  reflexivity.
Defined.

(** Whatever the mood, in range or not, a payload with notes is stored as
    it is and answered with the new entry when the insert goes through;
    when the insert fails the answer is a 500 and nothing is stored. *)
Theorem create_accepts_any_mood (w : World) (mood_data : MoodEntryCreate.t)
        (text : string) :
  MoodEntryCreate.notes mood_data = Some text ->
  let answer := respond (create_mood_entry mood_data) w in
  (outage w (calls w) = None ->
   fst answer =
     OK (MoodEntryResponse.make (uuid4 w (draws w))
           (MoodEntryCreate.mood mood_data) (MoodEntryCreate.mood_emoji mood_data)
           text (MoodEntryCreate.date mood_data) (clock w (ticks w))) /\
   mood_entries (snd answer) = (mood_entries w ++ [created w mood_data])%list) /\
  (forall msg, outage w (calls w) = Some msg ->
   fst answer = Failed 500 msg /\ mood_entries (snd answer) = mood_entries w).
Proof.
  intros N answer. subst answer. split.
  - intros Hup. split; run; rewrite Hup; walk.
    + unfold MoodEntryResponse.validate. cbn [MoodEntry.notes]. rewrite N.
      reflexivity.
    + destruct (MoodEntryResponse.validate _); reflexivity.
  - intros msg Hdown. run. rewrite Hdown. split; reflexivity.
Qed.

Lemma create_accepts_any_mood_witness :
  (outage fresh (calls fresh) = None ->
   fst (respond (create_mood_entry (MoodEntryCreate.make (-7) ":-D" (Some "") "2025-01-03"))
                fresh) =
     OK (MoodEntryResponse.make "entry-" (-7) ":-D" "" "2025-01-03" new_year) /\
   mood_entries (snd (respond (create_mood_entry
                                 (MoodEntryCreate.make (-7) ":-D" (Some "") "2025-01-03"))
                              fresh)) =
     [Document.make "entry-" (-7) ":-D" (Some "") "2025-01-03"
                    "2025-01-01T12:00:00+00:00"]) /\
  (forall msg, outage fresh (calls fresh) = Some msg ->
   fst (respond (create_mood_entry (MoodEntryCreate.make (-7) ":-D" (Some "") "2025-01-03"))
                fresh) = Failed 500 msg /\
   mood_entries (snd (respond (create_mood_entry
                                 (MoodEntryCreate.make (-7) ":-D" (Some "") "2025-01-03"))
                              fresh)) = mood_entries fresh).
Proof.
  apply (create_accepts_any_mood fresh
           (MoodEntryCreate.make (-7) ":-D" (Some "") "2025-01-03") "").
  reflexivity.
Defined.

(** C6.  Create can fail without the storage write failing: with notes that
    are null the insert goes through (the connection works and the entry
    is in the collection afterwards), and yet the answer is a 500. *)
Theorem create_fails_without_storage_failure :
  parse_body no_notes = Some (MoodEntryCreate.make 3 ":-|" None "2025-01-02") /\
  outage fresh (calls fresh) = None /\
  status (fst (respond (create_mood_entry
                          (MoodEntryCreate.make 3 ":-|" None "2025-01-02")) fresh))
    = 500 /\
  mood_entries after_no_notes =
    [Document.make "entry-" 3 ":-|" None "2025-01-02" "2025-01-01T12:00:00+00:00"].
Proof. repeat split. Qed.

(** ** Reading entries back *)

(** C4.  Once an entry with null notes is stored (by the Create above),
    listing does not return the entries: the response model refuses the
    null and the answer is a 500. *)
Theorem listing_fails_on_null_notes :
  mood_entries after_no_notes =
    [Document.make "entry-" 3 ":-|" None "2025-01-02" "2025-01-01T12:00:00+00:00"] /\
  outage after_no_notes (calls after_no_notes) = None /\
  fst (respond get_mood_entries after_no_notes) =
    Failed 500 (str_exn (ValidationError "MoodEntryResponse" "notes")).
Proof. repeat split. Qed.

(** C5.  The same stored entry cannot be looked up by its date: the
    answer is a 500, neither the entry nor null. *)
Theorem lookup_fails_on_null_notes :
  Collection.find_one (Collection.date_is "2025-01-02") (mood_entries after_no_notes) =
    Some (Document.make "entry-" 3 ":-|" None "2025-01-02"
                        "2025-01-01T12:00:00+00:00") /\
  outage after_no_notes (calls after_no_notes) = None /\
  fst (respond (get_mood_by_date "2025-01-02") after_no_notes) =
    Failed 500 (str_exn (ValidationError "MoodEntryResponse" "notes")).
Proof. repeat split. Qed.

Lemma comprehension_all {A B : Type} (f : A -> outcome B) (xs : list A) (ys : list B) :
  Forall2 (fun x y => f x = Returns y) xs ys ->
  comprehension f xs = Returns ys.
Proof.
  induction 1 as [|x y xs ys Hxy _ IH]; cbn [comprehension].
  - reflexivity.
  - rewrite Hxy, IH. reflexivity.
Qed.

Lemma presents_parsed (d : Document.t) (r : MoodEntryResponse.t) :
  presents d r ->
  exists parsed,
    parse_from_mongo d = Returns parsed /\
    MoodEntryResponse.validate parsed = Returns r.
Proof.
  intros (ts & text & V & T & N & ->).
  unfold parse_from_mongo. rewrite T, fromisoformat_isoformat by exact V.
  eexists. split; [reflexivity|].
  unfold MoodEntryResponse.validate. cbn [MoodEntry.notes]. rewrite N. reflexivity.
Qed.

Lemma presentable (d : Document.t) :
  stamped d -> Document.notes d <> None -> exists r, presents d r.
Proof.
  intros (ts & V & T) N. destruct (Document.notes d) as [text|] eqn:E; [|contradiction].
  eexists. exists ts, text. repeat split; eassumption.
Qed.

Lemma all_presentable (c : Collection.t) :
  Forall stamped c -> Forall (fun d => Document.notes d <> None) c ->
  exists rs, Forall2 presents c rs.
Proof.
  induction c as [|d c IH]; intros S N.
  - exists []. constructor.
  - inversion S as [|? ? Sd Sc]; inversion N as [|? ? Nd Nc]; subst.
    destruct (presentable d Sd Nd) as (r & P).
    destruct (IH Sc Nc) as (rs & F).
    exists (r :: rs). constructor; assumption.
Qed.

Lemma two_passes (moods : list Document.t) (rs : list MoodEntryResponse.t) :
  Forall2 presents moods rs ->
  exists parsed_moods,
    comprehension parse_from_mongo moods = Returns parsed_moods /\
    comprehension MoodEntryResponse.validate parsed_moods = Returns rs.
Proof.
  induction 1 as [|d r moods rs P _ (parsed & E1 & E2)].
  - exists []. split; reflexivity.
  - destruct (presents_parsed d r P) as (e & Ed & Er).
    exists (e :: parsed). cbn [comprehension]. rewrite Ed, E1, Er, E2.
    split; reflexivity.
Qed.

Lemma StronglySorted_Forall2 {A B : Type} (R : A -> A -> Prop) (Q : B -> B -> Prop)
      (P : A -> B -> Prop) :
  (forall a a' b b', P a b -> P a' b' -> R a a' -> Q b b') ->
  forall l l', Forall2 P l l' -> StronglySorted R l -> StronglySorted Q l'.
Proof.
  intros H l l' F. induction F as [|a b l l' Pab F IH]; intros S.
  - constructor.
  - inversion S as [|? ? Sl Fa]; subst. constructor; [apply IH, Sl|].
    clear IH S Sl. induction F as [|a' b' l l' Pab' F IH]; [constructor|].
    inversion Fa; subst. constructor; [eapply H; eassumption | apply IH; assumption].
Qed.

Lemma string_leb_isoformat (a b : datetime.t) :
  datetime.valid a = true -> datetime.valid b = true ->
  String.leb (datetime.isoformat a) (datetime.isoformat b) = datetime.leb a b.
Proof.
  intros Va Vb. unfold String.leb, datetime.leb.
  rewrite compare_isoformat by assumption. reflexivity.
Qed.

Lemma presents_order (a b : Document.t) (ra rb : MoodEntryResponse.t) :
  presents a ra -> presents b rb ->
  Collection.by_timestamp_desc a b = true -> not_older ra rb.
Proof.
  intros (ta & ? & Va & Ta & _ & ->) (tb & ? & Vb & Tb & _ & ->).
  unfold Collection.by_timestamp_desc, not_older. rewrite Ta, Tb.
  rewrite string_leb_isoformat by assumption. cbn [MoodEntryResponse.timestamp].
  exact (fun H => H).
Qed.

Lemma timestamp_order_flip (a b : Document.t) :
  Collection.by_timestamp_desc a b = false -> Collection.by_timestamp_desc b a = true.
Proof. apply string_leb_flip. Qed.

Lemma timestamp_order_trans (a b c : Document.t) :
  Collection.by_timestamp_desc a b = true -> Collection.by_timestamp_desc b c = true ->
  Collection.by_timestamp_desc a c = true.
Proof. intros H1 H2. eapply string_leb_trans; eassumption. Qed.

(** On a collection whose entries all carry notes and a timestamp that
    the service wrote, and with a working connection, listing answers
    with every entry, the most recent first; with no entry it answers
    with the empty list. *)
Theorem get_mood_entries_ordered (w : World) :
  outage w (calls w) = None ->
  Forall stamped (mood_entries w) ->
  Forall (fun d => Document.notes d <> None) (mood_entries w) ->
  exists moods rs,
    Permutation moods (mood_entries w) /\
    Forall2 presents moods rs /\
    StronglySorted not_older rs /\
    (mood_entries w = [] -> rs = []) /\
    fst (respond get_mood_entries w) = OK rs.
Proof.
  intros Hup S N.
  set (moods := Collection.sorted Collection.by_timestamp_desc (mood_entries w)).
  pose proof (sorted_perm Collection.by_timestamp_desc (mood_entries w)) as P.
  fold moods in P.
  destruct (all_presentable moods) as (rs & F).
  { eapply Permutation_Forall; [apply Permutation_sym, P | exact S]. }
  { eapply Permutation_Forall; [apply Permutation_sym, P | exact N]. }
  exists moods, rs. repeat split; try assumption.
  - eapply StronglySorted_Forall2; [exact presents_order | exact F |].
    apply (sorted_ordered Collection.by_timestamp_desc
             timestamp_order_flip timestamp_order_trans).
  - intros E. subst moods. rewrite E in F. inversion F. reflexivity.
  - destruct (two_passes moods rs F) as (parsed & E1 & E2).
    run. rewrite Hup. walk. fold moods. rewrite E1, E2. reflexivity.
Qed.

Lemma after_great_day_entries :
  mood_entries after_great_day =
  [Document.make "entry-" 5 ":-)" (Some "great day") "2025-01-01"
                 "2025-01-01T12:00:00+00:00"].
Proof. reflexivity. Qed.

Lemma get_mood_entries_ordered_witness :
  exists moods rs,
    Permutation moods (mood_entries after_great_day) /\
    Forall2 presents moods rs /\
    StronglySorted not_older rs /\
    (mood_entries after_great_day = [] -> rs = []) /\
    fst (respond get_mood_entries after_great_day) = OK rs.
Proof.
  apply (get_mood_entries_ordered after_great_day).
  - reflexivity.
  - rewrite after_great_day_entries. constructor; [|constructor].
    exists new_year. split; reflexivity.
  - rewrite after_great_day_entries. constructor; [discriminate | constructor].
Defined.

Lemma find_no_match (filter : Document.t -> bool) (c : Collection.t) :
  (forall d, In d c -> filter d = false) -> Collection.find_one filter c = None.
Proof.
  unfold Collection.find_one. induction c as [|d c IH]; intros H; cbn [find].
  - reflexivity.
  - rewrite (H d) by (left; reflexivity).
    apply IH. intros x Hx. apply H. right. exact Hx.
Qed.

(** Looking up a date that no stored entry carries answers null, with
    status 200. *)
Theorem get_mood_by_date_miss (w : World) (date : string) :
  outage w (calls w) = None ->
  (forall d, In d (mood_entries w) -> Document.date d <> date) ->
  fst (respond (get_mood_by_date date) w) = OK None.
Proof.
  intros Hup H. run. rewrite Hup. walk.
  rewrite find_no_match; [reflexivity|].
  intros d Hd. apply String.eqb_neq, H, Hd.
Qed.

Lemma get_mood_by_date_miss_witness :
  fst (respond (get_mood_by_date "2025-01-09") after_great_day) = OK None.
Proof.
  apply (get_mood_by_date_miss after_great_day "2025-01-09").
  - reflexivity.
  - intros d [<-|[]]. vm_compute. discriminate.
Defined.

(** Looking up a date that some entries carry answers the first of them
    in the collection, matched by equality of the date texts, when that
    entry can be shown. *)
Theorem get_mood_by_date_hit (w : World) (before after : Collection.t)
        (d : Document.t) (r : MoodEntryResponse.t) :
  outage w (calls w) = None ->
  mood_entries w = (before ++ d :: after)%list ->
  (forall x, In x before -> Document.date x <> Document.date d) ->
  presents d r ->
  fst (respond (get_mood_by_date (Document.date d)) w) = OK (Some r).
Proof.
  intros Hup Hw Hb P. run. rewrite Hup. walk.
  rewrite Hw, find_first_match.
  - destruct (presents_parsed d r P) as (parsed & E1 & E2).
    rewrite E1, E2. reflexivity.
  - intros x Hx. apply String.eqb_neq, Hb, Hx.
  - apply String.eqb_refl.
Qed.

Lemma get_mood_by_date_hit_witness :
  fst (respond (get_mood_by_date "2025-01-01") after_great_day) =
    OK (Some (MoodEntryResponse.make "entry-" 5 ":-)" "great day" "2025-01-01"
                                     new_year)).
Proof.
  apply (get_mood_by_date_hit after_great_day [] []
           (Document.make "entry-" 5 ":-)" (Some "great day") "2025-01-01"
                          "2025-01-01T12:00:00+00:00")).
  - reflexivity.
  - reflexivity.
  - intros x [].
  - exists new_year, "great day". repeat split.
Defined.

(** ** What a request changes *)

Lemma create_effect (w : World) (mood_data : MoodEntryCreate.t) :
  let w' := snd (respond (create_mood_entry mood_data) w) in
  clock w' = clock w /\ uuid4 w' = uuid4 w /\ draws w' = S (draws w) /\
  (mood_entries w' = mood_entries w \/
   mood_entries w' = (mood_entries w ++ [created w mood_data])%list).
Proof.
  run. destruct (outage w (calls w)); walk.
  - repeat split. left. reflexivity.
  - destruct (MoodEntryResponse.validate _); walk; repeat split; right; reflexivity.
Qed.

Lemma update_effect (w : World) (mood_id : string) (mood_data : MoodEntryCreate.t) :
  let w' := snd (respond (update_mood_entry mood_id mood_data) w) in
  clock w' = clock w /\ uuid4 w' = uuid4 w /\ draws w' = draws w /\
  (mood_entries w' = mood_entries w \/
   mood_entries w' =
     fst (Collection.update_one (Collection.id_is mood_id)
            (SetFields.make (MoodEntryCreate.mood mood_data)
                            (MoodEntryCreate.mood_emoji mood_data)
                            (MoodEntryCreate.notes mood_data)
                            (MoodEntryCreate.date mood_data)
                            (datetime.isoformat (clock w (ticks w))))
            (mood_entries w))).
Proof.
  run. destruct (outage w (calls w)); walk.
  - repeat split. left. reflexivity.
  - destruct (Collection.update_one _ _ (mood_entries w)) as [c n]. walk.
    destruct (n =? 1); walk.
    + destruct (outage w (S (calls w))); walk.
      * repeat split. right. reflexivity.
      * destruct (Collection.find_one _ c) as [d|]; walk.
        -- destruct (parse_from_mongo d); walk.
           ++ destruct (MoodEntryResponse.validate _); walk; repeat split;
                right; reflexivity.
           ++ repeat split. right. reflexivity.
        -- repeat split. right. reflexivity.
    + repeat split. right. reflexivity.
Qed.

Lemma delete_effect (w : World) (mood_id : string) :
  let w' := snd (respond (delete_mood_entry mood_id) w) in
  clock w' = clock w /\ uuid4 w' = uuid4 w /\ draws w' = draws w /\
  (mood_entries w' = mood_entries w \/
   mood_entries w' =
     fst (Collection.delete_one (Collection.id_is mood_id) (mood_entries w))).
Proof.
  run. destruct (outage w (calls w)); walk.
  - repeat split. left. reflexivity.
  - destruct (Collection.delete_one _ (mood_entries w)) as [c n]. walk.
    destruct (n =? 1); walk; repeat split; right; reflexivity.
Qed.

Lemma get_mood_entries_effect (w : World) :
  let w' := snd (respond get_mood_entries w) in
  clock w' = clock w /\ uuid4 w' = uuid4 w /\ draws w' = draws w /\
  mood_entries w' = mood_entries w.
Proof.
  run. destruct (outage w (calls w)); walk; [repeat split|].
  destruct (comprehension parse_from_mongo _) as [parsed|]; walk; [|repeat split].
  destruct (comprehension MoodEntryResponse.validate parsed); walk; repeat split.
Qed.

Lemma get_mood_by_date_effect (w : World) (date : string) :
  let w' := snd (respond (get_mood_by_date date) w) in
  clock w' = clock w /\ uuid4 w' = uuid4 w /\ draws w' = draws w /\
  mood_entries w' = mood_entries w.
Proof.
  run. destruct (outage w (calls w)); walk; [repeat split|].
  destruct (Collection.find_one _ _) as [d|]; walk; [|repeat split].
  destruct (parse_from_mongo d); walk; [|repeat split].
  destruct (MoodEntryResponse.validate _); walk; repeat split.
Qed.

Lemma export_moods_csv_effect (w : World) :
  let w' := snd (respond export_moods_csv w) in
  clock w' = clock w /\ uuid4 w' = uuid4 w /\ draws w' = draws w /\
  mood_entries w' = mood_entries w.
Proof.
  run. destruct (outage w (calls w)); walk; [repeat split|].
  destruct (csv_loop _ _); walk; repeat split.
Qed.

(** A request leaves the clock and the uuid source alone, draws at most
    one uuid, and does to the collection one of four things: nothing, the
    insertion of the entry it created, an update, a deletion. *)
Lemma serve_effect (r : Request) (w : World) :
  clock (serve r w) = clock w /\ uuid4 (serve r w) = uuid4 w /\
  ((draws (serve r w) = draws w /\ mood_entries (serve r w) = mood_entries w) \/
   (draws (serve r w) = S (draws w) /\
    (mood_entries (serve r w) = mood_entries w \/
     exists mood_data,
       mood_entries (serve r w) = (mood_entries w ++ [created w mood_data])%list)) \/
   (draws (serve r w) = draws w /\
    exists mood_id u,
      SetFields.timestamp u = datetime.isoformat (clock w (ticks w)) /\
      mood_entries (serve r w) =
        fst (Collection.update_one (Collection.id_is mood_id) u (mood_entries w))) \/
   (draws (serve r w) = draws w /\
    exists mood_id,
      mood_entries (serve r w) =
        fst (Collection.delete_one (Collection.id_is mood_id) (mood_entries w)))).
Proof.
  destruct r as [body| |date|mood_id body|mood_id|]; cbn [serve].
  - destruct (parse_body body) as [mood_data|].
    + destruct (create_effect w mood_data) as (C & U & D & [E|E]);
        repeat split; try assumption; right; left; split; try assumption.
      * left. exact E.
      * right. exists mood_data. exact E.
    + repeat split. left. split; reflexivity.
  - destruct (get_mood_entries_effect w) as (C & U & D & E).
    repeat split; try assumption. left. split; assumption.
  - destruct (get_mood_by_date_effect w date) as (C & U & D & E).
    repeat split; try assumption. left. split; assumption.
  - destruct (parse_body body) as [mood_data|].
    + destruct (update_effect w mood_id mood_data) as (C & U & D & [E|E]);
        repeat split; try assumption.
      * left. split; assumption.
      * right. right. left. split; [assumption|].
        eexists. eexists. split; [|exact E]. reflexivity.
    + repeat split. left. split; reflexivity.
  - destruct (delete_effect w mood_id) as (C & U & D & [E|E]);
      repeat split; try assumption.
    + left. split; assumption.
    + right. right. right. split; [assumption|]. exists mood_id. exact E.
  - destruct (export_moods_csv_effect w) as (C & U & D & E).
    repeat split; try assumption. left. split; assumption.
Qed.

(** ** Invariants of the collection *)

Lemma update_one_ids (filter : Document.t -> bool) (u : SetFields.t) (c : Collection.t) :
  List.map Document.id (fst (Collection.update_one filter u c)) =
  List.map Document.id c.
Proof.
  induction c as [|d c IH]; cbn [Collection.update_one].
  - reflexivity.
  - destruct (filter d).
    + reflexivity.
    + destruct (Collection.update_one filter u c) as [c' n].
      cbn [fst map] in *. rewrite IH. reflexivity.
Qed.

Lemma update_one_Forall (P : Document.t -> Prop) (filter : Document.t -> bool)
      (u : SetFields.t) (c : Collection.t) :
  (forall d, P (SetFields.apply u d)) -> Forall P c ->
  Forall P (fst (Collection.update_one filter u c)).
Proof.
  intros Hu. induction 1 as [|d c Hd Hc IH]; cbn [Collection.update_one].
  - constructor.
  - destruct (filter d).
    + constructor; [apply Hu | exact Hc].
    + destruct (Collection.update_one filter u c) as [c' n].
      constructor; [exact Hd | exact IH].
Qed.

(** A deletion takes one document out, or none. *)
Lemma delete_one_shape (filter : Document.t -> bool) (c : Collection.t) :
  fst (Collection.delete_one filter c) = c \/
  exists before d after,
    c = (before ++ d :: after)%list /\
    fst (Collection.delete_one filter c) = (before ++ after)%list.
Proof.
  induction c as [|d c IH]; cbn [Collection.delete_one].
  - left. reflexivity.
  - destruct (filter d).
    + right. exists [], d, c. split; reflexivity.
    + destruct (Collection.delete_one filter c) as [c' n]. cbn [fst] in *.
      destruct IH as [->|(before & x & after & -> & ->)].
      * left. reflexivity.
      * right. exists (d :: before), x, after. split; reflexivity.
Qed.

Lemma assigned_next (w w' : World) :
  uuid4 w' = uuid4 w -> draws w' = S (draws w) ->
  assigned w' = (assigned w ++ [uuid4 w (draws w)])%list.
Proof.
  intros U D. unfold assigned. rewrite U, D, seq_S, map_app. reflexivity.
Qed.

Lemma fresh_uuid (w : World) :
  collision_free w -> ~ In (uuid4 w (draws w)) (assigned w).
Proof.
  intros C H. unfold assigned in H. apply in_map_iff in H.
  destruct H as (k & E & Hk). apply in_seq in Hk.
  apply C in E. lia.
Qed.

Lemma serve_keeps_ids (r : Request) (w : World) :
  collision_free w -> ids_in_order w -> ids_in_order (serve r w).
Proof.
  intros C (N & I). unfold ids_in_order, ids in *.
  destruct (serve_effect r w) as (_ & U & [(D & E)|[(D & E)|[(D & E)|(D & E)]]]).
  - rewrite E. split; [exact N|].
    unfold assigned. rewrite U, D. exact I.
  - rewrite (assigned_next w (serve r w) U D).
    destruct E as [E|(mood_data & E)]; rewrite E.
    + split; [exact N|]. apply incl_appl, I.
    + rewrite map_app. cbn [map created Document.id]. split.
      * apply NoDup_app; [exact N | repeat constructor; intros [] |].
        intros x Hx [<-|[]]. apply (fresh_uuid w C), I, Hx.
      * apply incl_app; [apply incl_appl, I | apply incl_appr, incl_refl].
  - destruct E as (mood_id & u & _ & E). rewrite E, update_one_ids.
    split; [exact N|]. unfold assigned. rewrite U, D. exact I.
  - destruct E as (mood_id & E). rewrite E.
    assert (A : assigned (serve r w) = assigned w)
      by (unfold assigned; rewrite U, D; reflexivity).
    rewrite A.
    destruct (delete_one_shape (Collection.id_is mood_id) (mood_entries w))
      as [->|(before & d & after & Hw & ->)]; [split; assumption|].
    rewrite Hw in N, I. rewrite map_app in *. cbn [map] in *. split.
    + eapply NoDup_remove_1, N.
    + intros x Hx. apply I. apply in_app_or in Hx. apply in_or_app.
      destruct Hx as [Hx|Hx]; [left; exact Hx | right; right; exact Hx].
Qed.

Lemma reachable_sources (w0 w : World) :
  reachable w0 w -> clock w = clock w0 /\ uuid4 w = uuid4 w0.
Proof.
  induction 1 as [|w r _ (C & U)]; [split; reflexivity|].
  destruct (serve_effect r w) as (C' & U' & _). split; congruence.
Qed.

Lemma reachable_ids (w0 w : World) :
  collision_free w0 -> mood_entries w0 = [] -> reachable w0 w ->
  collision_free w /\ ids_in_order w.
Proof.
  intros C E R. induction R as [|w r R (Cw & I)].
  - split; [exact C|]. unfold ids_in_order, ids. rewrite E. split.
    + constructor.
    + intros x [].
  - split; [|apply serve_keeps_ids; assumption].
    destruct (serve_effect r w) as (_ & U & _).
    intros i j. rewrite U. apply Cw.
Qed.

(** A timestamp read off a sound clock is the [isoformat] of a datetime
    that exists. *)
Lemma read_off_clock_stamped (w0 w : World) (d : Document.t) :
  read_off_clock w0 w d -> stamped d.
Proof.
  intros (k & _ & _ & V & T). exists (clock w0 k). split; [exact V | exact T].
Qed.

(** The readings of the clock a request takes: none, or the one its
    entry is stamped with. *)
Lemma create_ticks (w : World) (mood_data : MoodEntryCreate.t) :
  ticks (snd (respond (create_mood_entry mood_data) w)) = S (ticks w).
Proof.
  run. destruct (outage w (calls w)); walk; [reflexivity|].
  destruct (MoodEntryResponse.validate _); walk; reflexivity.
Qed.

Lemma update_ticks (w : World) (mood_id : string) (mood_data : MoodEntryCreate.t) :
  ticks (snd (respond (update_mood_entry mood_id mood_data) w)) = S (ticks w).
Proof.
  run. destruct (outage w (calls w)); walk; [reflexivity|].
  destruct (Collection.update_one _ _ (mood_entries w)) as [c n]. walk.
  destruct (n =? 1); walk; [|reflexivity].
  destruct (outage w (S (calls w))); walk; [reflexivity|].
  destruct (Collection.find_one _ c) as [d|]; walk; [|reflexivity].
  destruct (parse_from_mongo d); walk; [|reflexivity].
  destruct (MoodEntryResponse.validate _); walk; reflexivity.
Qed.

Lemma delete_ticks (w : World) (mood_id : string) :
  ticks (snd (respond (delete_mood_entry mood_id) w)) = ticks w.
Proof.
  run. destruct (outage w (calls w)); walk; [reflexivity|].
  destruct (Collection.delete_one _ (mood_entries w)) as [c n]. walk.
  destruct (n =? 1); walk; reflexivity.
Qed.

Lemma get_mood_entries_ticks (w : World) :
  ticks (snd (respond get_mood_entries w)) = ticks w.
Proof.
  run. destruct (outage w (calls w)); walk; [reflexivity|].
  destruct (comprehension parse_from_mongo _) as [parsed|]; walk; [|reflexivity].
  destruct (comprehension MoodEntryResponse.validate parsed); walk; reflexivity.
Qed.

Lemma get_mood_by_date_ticks (w : World) (date : string) :
  ticks (snd (respond (get_mood_by_date date) w)) = ticks w.
Proof.
  run. destruct (outage w (calls w)); walk; [reflexivity|].
  destruct (Collection.find_one _ _) as [d|]; walk; [|reflexivity].
  destruct (parse_from_mongo d); walk; [|reflexivity].
  destruct (MoodEntryResponse.validate _); walk; reflexivity.
Qed.

Lemma export_moods_csv_ticks (w : World) :
  (ticks w <= ticks (snd (respond export_moods_csv w)))%nat.
Proof.
  run. destruct (outage w (calls w)); walk; [lia|].
  destruct (csv_loop _ _); walk; lia.
Qed.

Lemma read_off_clock_later (w0 w w' : World) (d : Document.t) :
  (ticks w <= ticks w')%nat -> read_off_clock w0 w d -> read_off_clock w0 w' d.
Proof.
  intros L (k & A & B & V & T). exists k. repeat split; try assumption. lia.
Qed.

(** A request keeps the timestamps that were read off the clock, and the
    one it writes is the reading it has just taken. *)
Lemma serve_keeps_readings (w0 : World) (r : Request) (w : World) :
  sound_clock w0 -> clock w = clock w0 -> (ticks w0 <= ticks w)%nat ->
  Forall (read_off_clock w0 w) (mood_entries w) ->
  (ticks w <= ticks (serve r w))%nat /\
  Forall (read_off_clock w0 (serve r w)) (mood_entries (serve r w)).
Proof.
  intros C K L Old.
  assert (Later : forall w', (ticks w <= ticks w')%nat ->
                             Forall (read_off_clock w0 w') (mood_entries w)).
  { intros w' Le. revert Old. apply Forall_impl. intros d.
    apply read_off_clock_later, Le. }
  assert (Now : forall w' d,
             ticks w' = S (ticks w) ->
             Document.timestamp d = datetime.isoformat (clock w (ticks w)) ->
             read_off_clock w0 w' d).
  { intros w' d E Hd. exists (ticks w). rewrite E, <- K.
    repeat split; [exact L | lia | rewrite K; apply C | exact Hd]. }
  destruct r as [body| |date|mood_id body|mood_id|]; cbn [serve].
  - destruct (parse_body body) as [mood_data|]; [|split; [lia | apply Later; lia]].
    pose proof (create_ticks w mood_data) as T.
    destruct (create_effect w mood_data) as (_ & _ & _ & [E|E]);
      (split; [lia|]); rewrite E.
    + apply Later. lia.
    + apply Forall_app. split; [apply Later; lia|].
      constructor; [|constructor]. apply (Now _ _ T). reflexivity.
  - pose proof (get_mood_entries_ticks w) as T.
    destruct (get_mood_entries_effect w) as (_ & _ & _ & E).
    split; [lia|]. rewrite E. apply Later. lia.
  - pose proof (get_mood_by_date_ticks w date) as T.
    destruct (get_mood_by_date_effect w date) as (_ & _ & _ & E).
    split; [lia|]. rewrite E. apply Later. lia.
  - destruct (parse_body body) as [mood_data|]; [|split; [lia | apply Later; lia]].
    pose proof (update_ticks w mood_id mood_data) as T.
    destruct (update_effect w mood_id mood_data) as (_ & _ & _ & [E|E]);
      (split; [lia|]); rewrite E.
    + apply Later. lia.
    + apply update_one_Forall; [|apply Later; lia].
      intros d. apply (Now _ _ T). reflexivity.
  - pose proof (delete_ticks w mood_id) as T.
    destruct (delete_effect w mood_id) as (_ & _ & _ & [E|E]);
      (split; [lia|]); rewrite E.
    + apply Later. lia.
    + assert (S' : Forall
                     (read_off_clock w0 (snd (respond (delete_mood_entry mood_id) w)))
                     (mood_entries w)) by (apply Later; lia).
      destruct (delete_one_shape (Collection.id_is mood_id) (mood_entries w))
        as [->|(before & d & after & Hw & ->)]; [exact S'|].
      rewrite Hw in S'. apply Forall_app in S'. destruct S' as (Sb & Sa).
      apply Forall_app. split; [exact Sb|]. inversion Sa. assumption.
  - pose proof (export_moods_csv_ticks w) as T.
    destruct (export_moods_csv_effect w) as (_ & _ & _ & E).
    split; [exact T|]. rewrite E. apply Later. exact T.
Qed.

(** X7.  In every world the service reaches from an empty collection,
    each stored timestamp is the [isoformat] text of a reading the service
    itself took of its clock since it started: the [k]-th reading of the
    clock for a [k] between the count at the start and the count now.  A
    timestamp the client sends, or any other datetime, is never stored. *)
Theorem reachable_stamped (w0 w : World) :
  sound_clock w0 -> mood_entries w0 = [] -> reachable w0 w ->
  Forall (read_off_clock w0 w) (mood_entries w).
Proof.
  intros C E R.
  assert (I : (ticks w0 <= ticks w)%nat /\
              Forall (read_off_clock w0 w) (mood_entries w)).
  { induction R as [|w r R (L & IH)].
    - split; [lia|]. rewrite E. constructor.
    - destruct (reachable_sources w0 w R) as (K & _).
      destruct (serve_keeps_readings w0 r w C K L IH) as (L' & F).
      split; [lia | exact F]. }
  apply I.
Qed.

Lemma reachable_stamped_witness :
  Forall (read_off_clock fresh after_she_said) (mood_entries after_she_said).
Proof.
  apply (reachable_stamped fresh after_she_said).
  - intros k. reflexivity.
  - reflexivity.
  - apply reachable_serve, reachable_serve, reachable_start.
Defined.

(** ** Identity of the entries *)

(** C7.  In any world the service can reach from an empty collection,
    drawing from a uuid source that never repeats itself: a Create whose
    insert goes through stores the payload under an id the service drew,
    different from every id handed out before, and under the timestamp
    the service read off its clock; nothing else in the body (an id, a
    timestamp, any other key) changes the payload the handler receives;
    notes absent from the body are stored as the empty text; and the
    stored ids are pairwise distinct, before and after any request. *)
Theorem create_assigns_identity (w0 w : World) (body : Body.t)
        (mood_data : MoodEntryCreate.t) :
  collision_free w0 -> mood_entries w0 = [] -> reachable w0 w ->
  outage w (calls w) = None ->
  parse_body body = Some mood_data ->
  mood_entries (serve (POST_moods body) w) =
    (mood_entries w ++ [created w mood_data])%list /\
  Document.id (created w mood_data) = uuid4 w (draws w) /\
  Document.timestamp (created w mood_data) =
    datetime.isoformat (clock w (ticks w)) /\
  ~ In (Document.id (created w mood_data)) (assigned w) /\
  (forall extra,
     parse_body (Body.make (Body.mood body) (Body.mood_emoji body)
                           (Body.notes body) (Body.date body) extra)
     = Some mood_data) /\
  (Body.notes body = Absent ->
   Document.notes (created w mood_data) = Some EmptyString) /\
  NoDup (ids w) /\
  (forall r, NoDup (ids (serve r w))).
Proof.
  intros C E R Hup Hbody.
  destruct (reachable_ids w0 w C E R) as (Cw & I).
  repeat split.
  - cbn [serve]. rewrite Hbody. run. rewrite Hup. walk.
    destruct (MoodEntryResponse.validate _); reflexivity.
  - apply fresh_uuid, Cw.
  - intros extra. exact Hbody.
  - intros A. unfold parse_body in Hbody. rewrite A in Hbody.
    destruct (Body.mood body), (Body.mood_emoji body), (Body.date body);
      try discriminate.
    injection Hbody as <-. reflexivity.
  - apply I.
  - intros r. apply (serve_keeps_ids r w Cw I).
Qed.

Lemma tally_length (k : nat) : String.length (tally k) = k.
Proof. induction k as [|k IH]; cbn [tally String.length]; congruence. Qed.

Lemma fresh_is_collision_free : collision_free fresh.
Proof.
  intros i j H. cbn in H. injection H as H.
  rewrite <- (tally_length i), <- (tally_length j), H. reflexivity.
Qed.

Lemma create_assigns_identity_witness :
  mood_entries (serve (POST_moods out_of_range) after_great_day) =
    (mood_entries after_great_day
     ++ [created after_great_day (MoodEntryCreate.make 10 ":-D" (Some "") "2025-01-03")])%list /\
  Document.id (created after_great_day
                 (MoodEntryCreate.make 10 ":-D" (Some "") "2025-01-03"))
    = uuid4 after_great_day (draws after_great_day) /\
  Document.timestamp (created after_great_day
                        (MoodEntryCreate.make 10 ":-D" (Some "") "2025-01-03"))
    = datetime.isoformat (clock after_great_day (ticks after_great_day)) /\
  ~ In (Document.id (created after_great_day
                       (MoodEntryCreate.make 10 ":-D" (Some "") "2025-01-03")))
       (assigned after_great_day) /\
  (forall extra,
     parse_body (Body.make (Body.mood out_of_range) (Body.mood_emoji out_of_range)
                           (Body.notes out_of_range) (Body.date out_of_range) extra)
     = Some (MoodEntryCreate.make 10 ":-D" (Some "") "2025-01-03")) /\
  (Body.notes out_of_range = Absent ->
   Document.notes (created after_great_day
                     (MoodEntryCreate.make 10 ":-D" (Some "") "2025-01-03"))
     = Some EmptyString) /\
  NoDup (ids after_great_day) /\
  (forall r, NoDup (ids (serve r after_great_day))).
Proof.
  apply (create_assigns_identity fresh after_great_day out_of_range
           (MoodEntryCreate.make 10 ":-D" (Some "") "2025-01-03")).
  - exact fresh_is_collision_free.
  - reflexivity.
  - apply reachable_serve, reachable_start.
  - reflexivity.
  - reflexivity.
Defined.

Lemma update_success_witness :
  exists before old after text,
    mood_entries after_great_day = (before ++ old :: after)%list /\
    (forall d, In d before -> Document.id d <> "entry-") /\
    Document.id old = "entry-" /\
    MoodEntryCreate.notes (MoodEntryCreate.make 2 ":-(" (Some "rain") "2025-01-02")
      = Some text /\
    mood_entries (snd (respond (update_mood_entry "entry-"
                                  (MoodEntryCreate.make 2 ":-(" (Some "rain") "2025-01-02"))
                               after_great_day)) =
      (before ++
       Document.make (Document.id old) 2 ":-(" (Some "rain") "2025-01-02"
                     (datetime.isoformat
                        (clock after_great_day (ticks after_great_day)))
       :: after)%list /\
    MoodEntryResponse.make "entry-" 2 ":-(" "rain" "2025-01-02" new_year =
    MoodEntryResponse.make (Document.id old) 2 ":-(" text "2025-01-02"
                           (clock after_great_day (ticks after_great_day)).
Proof.
  apply (update_success after_great_day
           (snd (respond (update_mood_entry "entry-"
                            (MoodEntryCreate.make 2 ":-(" (Some "rain") "2025-01-02"))
                         after_great_day))
           "entry-"
           (MoodEntryCreate.make 2 ":-(" (Some "rain") "2025-01-02")
           (MoodEntryResponse.make "entry-" 2 ":-(" "rain" "2025-01-02" new_year)).
  - reflexivity.
  - reflexivity.
Defined.

(* ================================================================== *)
(** * Further properties of the handlers *)

(** ** Timestamps in storage *)

(** Storing an entry and reading the document back gives the entry
    again. *)
Theorem prepare_parse_round_trip (e : MoodEntry.t) :
  datetime.valid (MoodEntry.timestamp e) = true ->
  parse_from_mongo (prepare_for_mongo e) = Returns e.
Proof.
  intros V. unfold parse_from_mongo, prepare_for_mongo.
  cbn [Document.timestamp Document.id Document.mood Document.mood_emoji
       Document.notes Document.date].
  rewrite fromisoformat_isoformat by exact V. destruct e. reflexivity.
Qed.

Lemma prepare_parse_round_trip_witness :
  parse_from_mongo
    (prepare_for_mongo
       (MoodEntry.make "entry-" 5 ":-)" (Some "great day") "2025-01-01"
                       (datetime.make 2024 2 29 23 59 59 999999)))
  = Returns (MoodEntry.make "entry-" 5 ":-)" (Some "great day") "2025-01-01"
                            (datetime.make 2024 2 29 23 59 59 999999)).
Proof.
  apply (prepare_parse_round_trip
           (MoodEntry.make "entry-" 5 ":-)" (Some "great day") "2025-01-01"
                           (datetime.make 2024 2 29 23 59 59 999999))).
  reflexivity.
Defined.

Lemma isoformat_injective (a b : datetime.t) :
  datetime.valid a = true -> datetime.valid b = true ->
  datetime.isoformat a = datetime.isoformat b -> a = b.
Proof.
  intros Va Vb E.
  pose proof (fromisoformat_isoformat a Va) as Ha.
  rewrite E, (fromisoformat_isoformat b Vb) in Ha. congruence.
Qed.

(** The order [find().sort("timestamp", -1)] puts two stored entries in is
    the order of the instants they were written at, and two entries
    stored under the same timestamp text were written at the same
    instant: sorting on the stored text sorts by time. *)
Theorem stored_timestamp_order (e1 e2 : MoodEntry.t) :
  datetime.valid (MoodEntry.timestamp e1) = true ->
  datetime.valid (MoodEntry.timestamp e2) = true ->
  Collection.by_timestamp_desc (prepare_for_mongo e1) (prepare_for_mongo e2)
    = datetime.leb (MoodEntry.timestamp e2) (MoodEntry.timestamp e1) /\
  (Document.timestamp (prepare_for_mongo e1)
     = Document.timestamp (prepare_for_mongo e2) ->
   MoodEntry.timestamp e1 = MoodEntry.timestamp e2).
Proof.
  intros V1 V2. split.
  - unfold Collection.by_timestamp_desc, prepare_for_mongo.
    cbn [Document.timestamp]. apply string_leb_isoformat; assumption.
  - unfold prepare_for_mongo. cbn [Document.timestamp].
    apply isoformat_injective; assumption.
Qed.

Lemma stored_timestamp_order_witness :
  Collection.by_timestamp_desc
    (prepare_for_mongo (MoodEntry.make "entry-" 5 ":-)" None "2025-01-01" new_year))
    (prepare_for_mongo (MoodEntry.make "entry-|" 1 ":-(" None "2025-01-01"
                          (datetime.make 2025 1 1 12 0 0 5)))
    = datetime.leb (datetime.make 2025 1 1 12 0 0 5) new_year /\
  (Document.timestamp
     (prepare_for_mongo (MoodEntry.make "entry-" 5 ":-)" None "2025-01-01" new_year))
   = Document.timestamp
       (prepare_for_mongo (MoodEntry.make "entry-|" 1 ":-(" None "2025-01-01"
                             (datetime.make 2025 1 1 12 0 0 5))) ->
   new_year = datetime.make 2025 1 1 12 0 0 5).
Proof.
  apply (stored_timestamp_order
           (MoodEntry.make "entry-" 5 ":-)" None "2025-01-01" new_year)
           (MoodEntry.make "entry-|" 1 ":-(" None "2025-01-01"
                           (datetime.make 2025 1 1 12 0 0 5)));
    reflexivity.
Defined.

(** ** Failures *)

(** Listing, looking up a date and exporting never change the collection,
    whatever they answer. *)
Theorem reads_leave_the_collection (w : World) (date : string) :
  mood_entries (snd (respond get_mood_entries w)) = mood_entries w /\
  mood_entries (snd (respond (get_mood_by_date date) w)) = mood_entries w /\
  mood_entries (snd (respond export_moods_csv w)) = mood_entries w.
Proof.
  repeat split.
  - apply get_mood_entries_effect.
  - apply get_mood_by_date_effect.
  - apply export_moods_csv_effect.
Qed.

(** When the first driver call of a request fails, every handler answers
    status 500 with the driver's message as detail and the collection is
    as it was. *)
Theorem storage_failure_answers_500 (w : World) (msg : string)
        (mood_id date : string) (mood_data : MoodEntryCreate.t) :
  outage w (calls w) = Some msg ->
  (fst (respond (create_mood_entry mood_data) w) = Failed 500 msg /\
   mood_entries (snd (respond (create_mood_entry mood_data) w)) = mood_entries w) /\
  fst (respond get_mood_entries w) = Failed 500 msg /\
  fst (respond (get_mood_by_date date) w) = Failed 500 msg /\
  (fst (respond (update_mood_entry mood_id mood_data) w) = Failed 500 msg /\
   mood_entries (snd (respond (update_mood_entry mood_id mood_data) w))
     = mood_entries w) /\
  (fst (respond (delete_mood_entry mood_id) w) = Failed 500 msg /\
   mood_entries (snd (respond (delete_mood_entry mood_id) w)) = mood_entries w) /\
  fst (respond export_moods_csv w) = Failed 500 msg.
Proof.
  intros Hdown. repeat split; run; rewrite Hdown; reflexivity.
Qed.

Lemma storage_failure_answers_500_witness :
  (fst (respond (create_mood_entry rainy_day) (reconnected down after_great_day))
     = Failed 500 "connection refused" /\
   mood_entries (snd (respond (create_mood_entry rainy_day)
                              (reconnected down after_great_day)))
     = mood_entries (reconnected down after_great_day)) /\
  fst (respond get_mood_entries (reconnected down after_great_day))
    = Failed 500 "connection refused" /\
  fst (respond (get_mood_by_date "2025-01-01") (reconnected down after_great_day))
    = Failed 500 "connection refused" /\
  (fst (respond (update_mood_entry "entry-" rainy_day)
                (reconnected down after_great_day))
     = Failed 500 "connection refused" /\
   mood_entries (snd (respond (update_mood_entry "entry-" rainy_day)
                              (reconnected down after_great_day)))
     = mood_entries (reconnected down after_great_day)) /\
  (fst (respond (delete_mood_entry "entry-") (reconnected down after_great_day))
     = Failed 500 "connection refused" /\
   mood_entries (snd (respond (delete_mood_entry "entry-")
                              (reconnected down after_great_day)))
     = mood_entries (reconnected down after_great_day)) /\
  fst (respond export_moods_csv (reconnected down after_great_day))
    = Failed 500 "connection refused".
Proof.
  apply (storage_failure_answers_500 (reconnected down after_great_day)
           "connection refused" "entry-" "2025-01-01" rainy_day).
  reflexivity.
Defined.

Lemma update_one_hit (filter : Document.t -> bool) (u : SetFields.t)
      (before after : Collection.t) (d : Document.t) :
  (forall x, In x before -> filter x = false) -> filter d = true ->
  Collection.update_one filter u (before ++ d :: after)%list =
  ((before ++ SetFields.apply u d :: after)%list,
   if SetFields.noop u d then 0 else 1).
Proof.
  intros Hb Hd.
  induction before as [|x before IH]; cbn [app Collection.update_one].
  - rewrite Hd. reflexivity.
  - rewrite (Hb x) by (left; reflexivity).
    rewrite IH by (intros y Hy; apply Hb; right; exact Hy). reflexivity.
Qed.

(** What [update_one] does for a stored id when the clock has moved
    since the entry was written. *)
Lemma update_run (w : World) (mood_id : string) (mood_data : MoodEntryCreate.t)
      (before after : Collection.t) (old : Document.t) :
  outage w (calls w) = None ->
  mood_entries w = (before ++ old :: after)%list ->
  (forall x, In x before -> Document.id x <> mood_id) ->
  Document.id old = mood_id ->
  Document.timestamp old <> datetime.isoformat (clock w (ticks w)) ->
  Collection.update_one (Collection.id_is mood_id)
    (SetFields.make (MoodEntryCreate.mood mood_data)
                    (MoodEntryCreate.mood_emoji mood_data)
                    (MoodEntryCreate.notes mood_data)
                    (MoodEntryCreate.date mood_data)
                    (datetime.isoformat (clock w (ticks w))))
    (mood_entries w)
  = ((before ++
      Document.make (Document.id old) (MoodEntryCreate.mood mood_data)
                    (MoodEntryCreate.mood_emoji mood_data)
                    (MoodEntryCreate.notes mood_data)
                    (MoodEntryCreate.date mood_data)
                    (datetime.isoformat (clock w (ticks w)))
      :: after)%list, 1).
Proof.
  intros _ Hw Hb Ho Hchange. rewrite Hw, update_one_hit.
  - unfold SetFields.noop. cbn [SetFields.timestamp].
    apply not_eq_sym, String.eqb_neq in Hchange. rewrite Hchange.
    rewrite andb_false_r. reflexivity.
  - apply id_is_false, Hb.
  - apply String.eqb_eq, Ho.
Qed.

(** An update that goes through and whose re-read fails is answered with
    status 500, and the entry stays updated: the two driver calls of
    [update_mood_entry] are not one transaction. *)
Theorem update_persists_when_reread_fails (w : World) (mood_id msg : string)
        (mood_data : MoodEntryCreate.t) (before after : Collection.t)
        (old : Document.t) :
  outage w (calls w) = None ->
  outage w (S (calls w)) = Some msg ->
  mood_entries w = (before ++ old :: after)%list ->
  (forall x, In x before -> Document.id x <> mood_id) ->
  Document.id old = mood_id ->
  Document.timestamp old <> datetime.isoformat (clock w (ticks w)) ->
  fst (respond (update_mood_entry mood_id mood_data) w) = Failed 500 msg /\
  mood_entries (snd (respond (update_mood_entry mood_id mood_data) w)) =
    (before ++
     Document.make (Document.id old) (MoodEntryCreate.mood mood_data)
                   (MoodEntryCreate.mood_emoji mood_data)
                   (MoodEntryCreate.notes mood_data)
                   (MoodEntryCreate.date mood_data)
                   (datetime.isoformat (clock w (ticks w)))
     :: after)%list.
Proof.
  intros Hup Hdown Hw Hb Ho Hchange.
  pose proof (update_run w mood_id mood_data before after old Hup Hw Hb Ho Hchange) as U.
  split; run; rewrite Hup; walk; rewrite U; walk;
    change (1 =? 1) with true; walk; rewrite Hdown; reflexivity.
Qed.

Lemma update_persists_when_reread_fails_witness :
  fst (respond (update_mood_entry "entry-" rainy_day)
               (reconnected (drops_at 2) (serve (POST_moods great_day) ticking)))
    = Failed 500 "connection lost" /\
  mood_entries (snd (respond (update_mood_entry "entry-" rainy_day)
                 (reconnected (drops_at 2) (serve (POST_moods great_day) ticking))))
    = ([] ++
       Document.make "entry-" 2 ":-(" (Some "rain") "2025-01-02"
                     "2025-01-01T12:00:01+00:00"
       :: [])%list.
Proof.
  apply (update_persists_when_reread_fails
           (reconnected (drops_at 2) (serve (POST_moods great_day) ticking))
           "entry-" "connection lost" rainy_day [] []
           (Document.make "entry-" 5 ":-)" (Some "great day") "2025-01-01"
                          "2025-01-01T12:00:00+00:00")).
  - reflexivity.
  - reflexivity.
  - reflexivity.
  - intros x [].
  - reflexivity.
  - vm_compute. discriminate.
Defined.

(** An update with null notes of a stored id, the connection working, is
    written to the collection and then answered with status 500: the
    response model refuses the entry read back. *)
Theorem update_null_notes_persists_then_fails (w : World) (mood_id : string)
        (mood_data : MoodEntryCreate.t) (before after : Collection.t)
        (old : Document.t) :
  outage w (calls w) = None ->
  outage w (S (calls w)) = None ->
  mood_entries w = (before ++ old :: after)%list ->
  (forall x, In x before -> Document.id x <> mood_id) ->
  Document.id old = mood_id ->
  Document.timestamp old <> datetime.isoformat (clock w (ticks w)) ->
  MoodEntryCreate.notes mood_data = None ->
  status (fst (respond (update_mood_entry mood_id mood_data) w)) = 500 /\
  mood_entries (snd (respond (update_mood_entry mood_id mood_data) w)) =
    (before ++
     Document.make (Document.id old) (MoodEntryCreate.mood mood_data)
                   (MoodEntryCreate.mood_emoji mood_data) None
                   (MoodEntryCreate.date mood_data)
                   (datetime.isoformat (clock w (ticks w)))
     :: after)%list.
Proof.
  intros Hup Hup' Hw Hb Ho Hchange Hn.
  pose proof (update_run w mood_id mood_data before after old Hup Hw Hb Ho Hchange) as U.
  rewrite Hn in U.
  split; run; rewrite Hup; walk; rewrite Hn, U; walk;
    change (1 =? 1) with true; walk; rewrite Hup'; walk;
    (rewrite find_first_match;
     [ | apply id_is_false, Hb | apply String.eqb_eq, Ho ]);
    destruct (parse_from_mongo _) as [parsed|] eqn:P; walk; try reflexivity;
    unfold parse_from_mongo in P;
    destruct (datetime.fromisoformat _); try discriminate;
    injection P as <-; reflexivity.
Qed.

Lemma update_null_notes_persists_then_fails_witness :
  status (fst (respond (update_mood_entry "entry-" speechless)
                       (serve (POST_moods great_day) ticking))) = 500 /\
  mood_entries (snd (respond (update_mood_entry "entry-" speechless)
                             (serve (POST_moods great_day) ticking))) =
    ([] ++
     Document.make "entry-" 1 ":-(" None "2025-01-02" "2025-01-01T12:00:01+00:00"
     :: [])%list.
Proof.
  apply (update_null_notes_persists_then_fails
           (serve (POST_moods great_day) ticking) "entry-" speechless [] []
           (Document.make "entry-" 5 ":-)" (Some "great day") "2025-01-01"
                          "2025-01-01T12:00:00+00:00")).
  - reflexivity.
  - reflexivity.
  - reflexivity.
  - intros x [].
  - reflexivity.
  - vm_compute. discriminate.
  - reflexivity.
Defined.

Lemma csv_loop_raises (moods : list Document.t) (d : Document.t) :
  In d moods -> Document.notes d = None ->
  forall csv_content,
    csv_loop moods csv_content =
    Raises (AttributeError "'NoneType' object has no attribute 'replace'").
Proof.
  intros Hin Hn. induction moods as [|m moods IH]; [destruct Hin|].
  intros acc. cbn [csv_loop]. unfold csv_line at 1.
  destruct (Document.notes m) as [text|] eqn:N.
  - destruct Hin as [->|Hin]; [congruence|]. apply IH, Hin.
  - reflexivity.
Qed.

(** One stored entry with null notes is enough for the export to fail:
    with a working connection the answer is status 500, the detail being
    the message of the [AttributeError] that [None.replace] raises. *)
Theorem export_fails_on_null_notes (w : World) (d : Document.t) :
  outage w (calls w) = None ->
  In d (mood_entries w) -> Document.notes d = None ->
  fst (respond export_moods_csv w) =
    Failed 500 "'NoneType' object has no attribute 'replace'".
Proof.
  intros Hup Hin Hn. run. rewrite Hup. walk.
  rewrite (csv_loop_raises _ d); [reflexivity | | exact Hn].
  eapply Permutation_in; [apply Permutation_sym, sorted_perm | exact Hin].
Qed.

Lemma export_fails_on_null_notes_witness :
  fst (respond export_moods_csv (serve (POST_moods no_notes) after_great_day)) =
    Failed 500 "'NoneType' object has no attribute 'replace'".
Proof.
  apply (export_fails_on_null_notes
           (serve (POST_moods no_notes) after_great_day)
           (Document.make "entry-|" 3 ":-|" None "2025-01-02"
                          "2025-01-01T12:00:00+00:00")).
  - reflexivity.
  - right. left. reflexivity.
  - reflexivity.
Defined.

Lemma parsed_notes (moods : list Document.t) : forall parsed,
  comprehension parse_from_mongo moods = Returns parsed ->
  List.map MoodEntry.notes parsed = List.map Document.notes moods.
Proof.
  induction moods as [|d moods IH]; intros parsed H; cbn [comprehension] in H.
  - injection H as <-. reflexivity.
  - unfold parse_from_mongo at 1 in H.
    destruct (datetime.fromisoformat (Document.timestamp d)); [|discriminate].
    destruct (comprehension parse_from_mongo moods) as [rest|]; [|discriminate].
    injection H as <-. cbn [map MoodEntry.notes]. rewrite (IH rest eq_refl).
    reflexivity.
Qed.

Lemma validated_notes (parsed : list MoodEntry.t) : forall rs,
  comprehension MoodEntryResponse.validate parsed = Returns rs ->
  ~ In None (List.map MoodEntry.notes parsed).
Proof.
  induction parsed as [|e parsed IH]; intros rs H; cbn [comprehension] in H.
  - intros [].
  - unfold MoodEntryResponse.validate at 1 in H.
    destruct (MoodEntry.notes e) as [text|] eqn:N; [|discriminate].
    destruct (comprehension MoodEntryResponse.validate parsed) as [rest|];
      [|discriminate].
    cbn [map]. rewrite N. intros [E|Hin]; [discriminate|].
    exact (IH rest eq_refl Hin).
Qed.

(** One stored entry with null notes is enough for the listing to fail:
    the answer is status 500, whatever else the collection holds. *)
Theorem get_mood_entries_fails_on_null_notes (w : World) (d : Document.t) :
  In d (mood_entries w) -> Document.notes d = None ->
  status (fst (respond get_mood_entries w)) = 500.
Proof.
  intros Hin Hn. run. destruct (outage w (calls w)); walk; [reflexivity|].
  destruct (comprehension parse_from_mongo _) as [parsed|] eqn:P; walk;
    [|reflexivity].
  destruct (comprehension MoodEntryResponse.validate parsed) as [rs|] eqn:V; walk;
    [|reflexivity].
  exfalso. apply (validated_notes parsed rs V).
  rewrite (parsed_notes _ parsed P), <- Hn. apply in_map.
  eapply Permutation_in; [apply Permutation_sym, sorted_perm | exact Hin].
Qed.

Lemma get_mood_entries_fails_on_null_notes_witness :
  status (fst (respond get_mood_entries
                       (serve (POST_moods no_notes) after_great_day))) = 500.
Proof.
  apply (get_mood_entries_fails_on_null_notes
           (serve (POST_moods no_notes) after_great_day)
           (Document.make "entry-|" 3 ":-|" None "2025-01-02"
                          "2025-01-01T12:00:00+00:00")).
  - right. left. reflexivity.
  - reflexivity.
Defined.

(** ** Requests one after the other *)

Lemma create_run (w : World) (mood_data : MoodEntryCreate.t) (text : string) :
  outage w (calls w) = None ->
  MoodEntryCreate.notes mood_data = Some text ->
  respond (create_mood_entry mood_data) w =
  (OK (answered w mood_data text), after_create w mood_data).
Proof.
  intros Hup N. run. rewrite Hup. walk.
  unfold MoodEntryResponse.validate, after_create, created.
  cbn [MoodEntry.notes]. rewrite N. reflexivity.
Qed.

Lemma delete_run (w : World) (before after : Collection.t) (d : Document.t) :
  outage w (calls w) = None ->
  mood_entries w = (before ++ d :: after)%list ->
  (forall x, In x before -> Document.id x <> Document.id d) ->
  respond (delete_mood_entry (Document.id d)) w =
  (OK "Mood entry deleted successfully", after_call (before ++ after)%list w).
Proof.
  intros Hup Hw Hb. run. rewrite Hup, Hw. rewrite delete_one_hit.
  - reflexivity.
  - apply id_is_false, Hb.
  - apply String.eqb_refl.
Qed.

Lemma created_presents (w : World) (mood_data : MoodEntryCreate.t) (text : string) :
  datetime.valid (clock w (ticks w)) = true ->
  MoodEntryCreate.notes mood_data = Some text ->
  presents (created w mood_data) (answered w mood_data text).
Proof.
  intros V N. exists (clock w (ticks w)), text. repeat split; assumption.
Qed.

Lemma lookup_run (w : World) (before after : Collection.t) (d : Document.t)
      (r : MoodEntryResponse.t) :
  outage w (calls w) = None ->
  mood_entries w = (before ++ d :: after)%list ->
  (forall x, In x before -> Document.date x <> Document.date d) ->
  presents d r ->
  fst (respond (get_mood_by_date (Document.date d)) w) = OK (Some r).
Proof.
  intros Hup Hw Hb P. run. rewrite Hup. walk.
  rewrite Hw, find_first_match.
  - destruct (presents_parsed d r P) as (parsed & E1 & E2).
    rewrite E1, E2. reflexivity.
  - intros x Hx. apply String.eqb_neq, Hb, Hx.
  - apply String.eqb_refl.
Qed.

(** An entry created under a date that no stored entry carries is what a
    lookup of that date returns next: the same id, mood, emoji, notes,
    date and timestamp that Create answered with. *)
Theorem create_then_get_by_date (w : World) (mood_data : MoodEntryCreate.t)
        (text : string) :
  outage w (calls w) = None ->
  outage w (S (calls w)) = None ->
  datetime.valid (clock w (ticks w)) = true ->
  MoodEntryCreate.notes mood_data = Some text ->
  (forall d, In d (mood_entries w) ->
             Document.date d <> MoodEntryCreate.date mood_data) ->
  fst (respond (create_mood_entry mood_data) w)
    = OK (answered w mood_data text) /\
  fst (respond (get_mood_by_date (MoodEntryCreate.date mood_data))
               (snd (respond (create_mood_entry mood_data) w)))
    = OK (Some (answered w mood_data text)).
Proof.
  intros Hup Hup' V N Hdates. rewrite (create_run w mood_data text Hup N).
  split; [reflexivity|]. cbn [snd].
  apply (lookup_run (after_create w mood_data) (mood_entries w) []
                    (created w mood_data)).
  - exact Hup'.
  - reflexivity.
  - exact Hdates.
  - apply created_presents; assumption.
Qed.

Lemma create_then_get_by_date_witness :
  fst (respond (create_mood_entry rainy_day) after_great_day)
    = OK (answered after_great_day rainy_day "rain") /\
  fst (respond (get_mood_by_date (MoodEntryCreate.date rainy_day))
               (snd (respond (create_mood_entry rainy_day) after_great_day)))
    = OK (Some (answered after_great_day rainy_day "rain")).
Proof.
  apply (create_then_get_by_date after_great_day rainy_day "rain").
  - reflexivity.
  - reflexivity.
  - reflexivity.
  - reflexivity.
  - intros d [<-|[]]. vm_compute. discriminate.
Defined.

(** A second entry under a date does not replace the first in lookups:
    after a Create under a date that a stored entry already carries, a
    lookup of the date still returns the first stored entry with it. *)
Theorem get_by_date_keeps_the_older_entry (w : World)
        (mood_data : MoodEntryCreate.t) (text : string)
        (before after : Collection.t) (d : Document.t) (r : MoodEntryResponse.t) :
  outage w (calls w) = None ->
  outage w (S (calls w)) = None ->
  MoodEntryCreate.notes mood_data = Some text ->
  mood_entries w = (before ++ d :: after)%list ->
  (forall x, In x before -> Document.date x <> Document.date d) ->
  Document.date d = MoodEntryCreate.date mood_data ->
  presents d r ->
  fst (respond (get_mood_by_date (MoodEntryCreate.date mood_data))
               (snd (respond (create_mood_entry mood_data) w)))
    = OK (Some r).
Proof.
  intros Hup Hup' N Hw Hb Hd P. rewrite (create_run w mood_data text Hup N).
  cbn [snd]. rewrite <- Hd.
  apply (lookup_run (after_create w mood_data) before
                    (after ++ [created w mood_data])%list d r).
  - exact Hup'.
  - unfold after_create. cbn [mood_entries]. rewrite Hw, <- app_assoc.
    reflexivity.
  - exact Hb.
  - exact P.
Qed.

Lemma get_by_date_keeps_the_older_entry_witness :
  fst (respond (get_mood_by_date
                  (MoodEntryCreate.date
                     (MoodEntryCreate.make 1 ":-(" (Some "worse") "2025-01-01")))
               (snd (respond (create_mood_entry
                                (MoodEntryCreate.make 1 ":-(" (Some "worse")
                                                      "2025-01-01"))
                             after_great_day)))
    = OK (Some (MoodEntryResponse.make "entry-" 5 ":-)" "great day" "2025-01-01"
                                       new_year)).
Proof.
  apply (get_by_date_keeps_the_older_entry after_great_day
           (MoodEntryCreate.make 1 ":-(" (Some "worse") "2025-01-01") "worse"
           [] []
           (Document.make "entry-" 5 ":-)" (Some "great day") "2025-01-01"
                          "2025-01-01T12:00:00+00:00")).
  - reflexivity.
  - reflexivity.
  - reflexivity.
  - reflexivity.
  - intros x [].
  - reflexivity.
  - exists new_year, "great day". repeat split.
Defined.

(** Deleting a stored entry whose date no other entry carries makes the
    next lookup of that date answer null. *)
Theorem delete_then_get_by_date (w : World) (before after : Collection.t)
        (d : Document.t) :
  outage w (calls w) = None ->
  outage w (S (calls w)) = None ->
  mood_entries w = (before ++ d :: after)%list ->
  (forall x, In x before -> Document.id x <> Document.id d) ->
  (forall x, In x (before ++ after)%list -> Document.date x <> Document.date d) ->
  fst (respond (delete_mood_entry (Document.id d)) w)
    = OK "Mood entry deleted successfully" /\
  fst (respond (get_mood_by_date (Document.date d))
               (snd (respond (delete_mood_entry (Document.id d)) w)))
    = OK None.
Proof.
  intros Hup Hup' Hw Hb Hdates. rewrite (delete_run w before after d Hup Hw Hb).
  split; [reflexivity|]. cbn [snd]. unfold after_call. run. rewrite Hup'. walk.
  rewrite find_no_match; [reflexivity|].
  intros x Hx. apply String.eqb_neq, Hdates, Hx.
Qed.

Lemma delete_then_get_by_date_witness :
  fst (respond (delete_mood_entry "entry-") after_great_day)
    = OK "Mood entry deleted successfully" /\
  fst (respond (get_mood_by_date "2025-01-01")
               (snd (respond (delete_mood_entry "entry-") after_great_day)))
    = OK None.
Proof.
  apply (delete_then_get_by_date after_great_day [] []
           (Document.make "entry-" 5 ":-)" (Some "great day") "2025-01-01"
                          "2025-01-01T12:00:00+00:00")).
  - reflexivity.
  - reflexivity.
  - reflexivity.
  - intros x [].
  - intros x [].
Defined.

Lemma create_world (w : World) (mood_data : MoodEntryCreate.t) :
  outage w (calls w) = None ->
  snd (respond (create_mood_entry mood_data) w) = after_create w mood_data.
Proof.
  intros Hup. run. rewrite Hup. walk.
  destruct (MoodEntryResponse.validate _); reflexivity.
Qed.

Lemma unused_id (w0 w : World) :
  collision_free w0 -> mood_entries w0 = [] -> reachable w0 w ->
  forall x, In x (mood_entries w) -> Document.id x <> uuid4 w (draws w).
Proof.
  intros C E R x Hx Heq.
  destruct (reachable_ids w0 w C E R) as (Cw & _ & I).
  apply (fresh_uuid w Cw). rewrite <- Heq. apply I. unfold ids.
  apply in_map, Hx.
Qed.

(** Deleting the id a Create has just assigned takes the collection back
    to what it was before the Create, whether or not the Create itself
    was answered with the entry. *)
Theorem create_then_delete_restores (w0 w : World) (mood_data : MoodEntryCreate.t) :
  collision_free w0 -> mood_entries w0 = [] -> reachable w0 w ->
  outage w (calls w) = None ->
  outage w (S (calls w)) = None ->
  fst (respond (delete_mood_entry (uuid4 w (draws w)))
               (snd (respond (create_mood_entry mood_data) w)))
    = OK "Mood entry deleted successfully" /\
  mood_entries
    (snd (respond (delete_mood_entry (uuid4 w (draws w)))
                  (snd (respond (create_mood_entry mood_data) w))))
    = mood_entries w.
Proof.
  intros C E R Hup Hup'. rewrite (create_world w mood_data Hup).
  pose proof (delete_run (after_create w mood_data) (mood_entries w) []
                         (created w mood_data) Hup' eq_refl
                         (unused_id w0 w C E R)) as D.
  change (Document.id (created w mood_data)) with (uuid4 w (draws w)) in D.
  rewrite D. cbn [fst snd after_call mood_entries]. rewrite app_nil_r.
  split; reflexivity.
Qed.

Lemma create_then_delete_restores_witness :
  fst (respond (delete_mood_entry (uuid4 after_great_day (draws after_great_day)))
               (snd (respond (create_mood_entry speechless) after_great_day)))
    = OK "Mood entry deleted successfully" /\
  mood_entries
    (snd (respond (delete_mood_entry (uuid4 after_great_day (draws after_great_day)))
                  (snd (respond (create_mood_entry speechless) after_great_day))))
    = mood_entries after_great_day.
Proof.
  apply (create_then_delete_restores fresh after_great_day speechless).
  - exact fresh_is_collision_free.
  - reflexivity.
  - apply reachable_serve, reachable_start.
  - reflexivity.
  - reflexivity.
Defined.

(** A stored id can be deleted once: the first Delete answers with the
    confirmation, and a second Delete of the same id finds nothing to
    remove and is answered with status 500, the detail carrying the 404
    the handler raised. *)
Theorem delete_twice (w0 w : World) (d : Document.t) :
  collision_free w0 -> mood_entries w0 = [] -> reachable w0 w ->
  In d (mood_entries w) ->
  outage w (calls w) = None ->
  outage w (S (calls w)) = None ->
  fst (respond (delete_mood_entry (Document.id d)) w)
    = OK "Mood entry deleted successfully" /\
  fst (respond (delete_mood_entry (Document.id d))
               (snd (respond (delete_mood_entry (Document.id d)) w)))
    = Failed 500 "404: Mood entry not found".
Proof.
  intros C E R Hin Hup Hup'.
  destruct (reachable_ids w0 w C E R) as (_ & N & _). unfold ids in N.
  destruct (in_split d (mood_entries w) Hin) as (before & after & Hw).
  rewrite Hw, map_app in N. cbn [map] in N.
  pose proof (NoDup_remove_2 _ _ _ N) as Hnot.
  assert (Hothers : forall x, In x (before ++ after)%list ->
                              Document.id x <> Document.id d).
  { intros x Hx Heq. apply Hnot. rewrite <- Heq, <- map_app. apply in_map, Hx. }
  rewrite (delete_run w before after d Hup Hw).
  - split; [reflexivity|]. cbn [snd]. unfold after_call. run. rewrite Hup'. walk.
    rewrite delete_one_miss by (apply id_is_false, Hothers). reflexivity.
  - intros x Hx. apply Hothers, in_or_app. left. exact Hx.
Qed.

Lemma delete_twice_witness :
  fst (respond (delete_mood_entry "entry-") after_great_day)
    = OK "Mood entry deleted successfully" /\
  fst (respond (delete_mood_entry "entry-")
               (snd (respond (delete_mood_entry "entry-") after_great_day)))
    = Failed 500 "404: Mood entry not found".
Proof.
  apply (delete_twice fresh after_great_day
           (Document.make "entry-" 5 ":-)" (Some "great day") "2025-01-01"
                          "2025-01-01T12:00:00+00:00")).
  - exact fresh_is_collision_free.
  - reflexivity.
  - apply reachable_serve, reachable_start.
  - left. reflexivity.
  - reflexivity.
  - reflexivity.
Defined.

Lemma sorted_newest (le : Document.t -> Document.t -> bool) (x : Document.t)
      (c : Collection.t) :
  (forall d, In d c -> le d x = false) ->
  Collection.sorted le (c ++ [x])%list = x :: Collection.sorted le c.
Proof.
  intros H. induction c as [|d c IH]; [reflexivity|].
  cbn [app]. unfold Collection.sorted in *. cbn [fold_right].
  rewrite IH by (intros y Hy; apply H; right; exact Hy).
  cbn [Collection.insert_sorted]. rewrite (H d) by (left; reflexivity).
  reflexivity.
Qed.

Lemma earlier_sorts_after (now : datetime.t) (d x : Document.t) :
  datetime.valid now = true ->
  Document.timestamp x = datetime.isoformat now ->
  earlier_than now d ->
  Collection.by_timestamp_desc d x = false.
Proof.
  intros V Tx (ts & Vt & Td & L). unfold Collection.by_timestamp_desc, String.leb.
  rewrite Tx, Td, String.compare_antisym, compare_isoformat, L by assumption.
  reflexivity.
Qed.

(** An entry created when the clock is past every stored timestamp heads
    the next listing, and the rest of the listing is what it was before
    the Create. *)
Theorem newest_entry_is_listed_first (w : World) (mood_data : MoodEntryCreate.t)
        (text : string) (rs : list MoodEntryResponse.t) :
  outage w (calls w) = None ->
  outage w (S (calls w)) = None ->
  datetime.valid (clock w (ticks w)) = true ->
  MoodEntryCreate.notes mood_data = Some text ->
  Forall (earlier_than (clock w (ticks w))) (mood_entries w) ->
  fst (respond get_mood_entries w) = OK rs ->
  fst (respond get_mood_entries (snd (respond (create_mood_entry mood_data) w)))
    = OK (answered w mood_data text :: rs).
Proof.
  intros Hup Hup' V N Hearlier H.
  rewrite (create_world w mood_data Hup). unfold after_create.
  unfold_handler H. step H. rewrite Hup in H. step H.
  destruct (comprehension parse_from_mongo _) as [parsed|] eqn:P; step H;
    [|discriminate].
  destruct (comprehension MoodEntryResponse.validate parsed) as [rs'|] eqn:Vd;
    step H; [|discriminate].
  injection H as <-.
  run. rewrite Hup'. walk.
  rewrite sorted_newest.
  - cbn [comprehension]. unfold parse_from_mongo at 1. unfold created at 1.
    cbn [Document.timestamp]. rewrite fromisoformat_isoformat by exact V.
    rewrite P. walk. cbn [comprehension].
    unfold MoodEntryResponse.validate at 1. unfold created.
    cbn [MoodEntry.notes Document.notes]. rewrite N, Vd. reflexivity.
  - rewrite Forall_forall in Hearlier. intros d Hd.
    apply (earlier_sorts_after (clock w (ticks w))); [exact V | reflexivity |].
    apply Hearlier, Hd.
Qed.

Lemma newest_entry_is_listed_first_witness :
  fst (respond get_mood_entries
         (snd (respond (create_mood_entry rainy_day)
                       (serve (POST_moods great_day) ticking))))
    = OK [answered (serve (POST_moods great_day) ticking) rainy_day "rain";
          MoodEntryResponse.make "entry-" 5 ":-)" "great day" "2025-01-01"
                                 (datetime.make 2025 1 1 12 0 0 0)].
Proof.
  apply (newest_entry_is_listed_first (serve (POST_moods great_day) ticking)
           rainy_day "rain").
  - reflexivity.
  - reflexivity.
  - reflexivity.
  - reflexivity.
  - change (mood_entries (serve (POST_moods great_day) ticking))
      with [Document.make "entry-" 5 ":-)" (Some "great day") "2025-01-01"
                          "2025-01-01T12:00:00+00:00"].
    constructor; [|constructor].
    exists (datetime.make 2025 1 1 12 0 0 0). repeat split.
  - reflexivity.
Defined.

(** ** What a write can touch *)

Lemma update_one_shape (filter : Document.t -> bool) (u : SetFields.t)
      (c : Collection.t) :
  fst (Collection.update_one filter u c) = c \/
  exists before old after,
    c = (before ++ old :: after)%list /\
    (forall x, In x before -> filter x = false) /\
    filter old = true /\
    fst (Collection.update_one filter u c)
      = (before ++ SetFields.apply u old :: after)%list.
Proof.
  induction c as [|d c IH]; cbn [Collection.update_one].
  - left. reflexivity.
  - destruct (filter d) eqn:F.
    + right. exists [], d, c. repeat split; try assumption. intros x [].
    + destruct (Collection.update_one filter u c) as [c' n]. cbn [fst] in *.
      destruct IH as [->|(before & old & after & -> & Hb & Ho & ->)].
      * left. reflexivity.
      * right. exists (d :: before), old, after. repeat split; try assumption.
        intros x [<-|Hx]; [exact F | apply Hb, Hx].
Qed.

Lemma delete_one_removed (filter : Document.t -> bool) (c : Collection.t) :
  fst (Collection.delete_one filter c) = c \/
  exists before d after,
    c = (before ++ d :: after)%list /\
    (forall x, In x before -> filter x = false) /\
    filter d = true /\
    fst (Collection.delete_one filter c) = (before ++ after)%list.
Proof.
  induction c as [|d c IH]; cbn [Collection.delete_one].
  - left. reflexivity.
  - destruct (filter d) eqn:F.
    + right. exists [], d, c. repeat split; try assumption. intros x [].
    + destruct (Collection.delete_one filter c) as [c' n]. cbn [fst] in *.
      destruct IH as [->|(before & x & after & -> & Hb & Hx & ->)].
      * left. reflexivity.
      * right. exists (d :: before), x, after. repeat split; try assumption.
        intros y [<-|Hy]; [exact F | apply Hb, Hy].
Qed.

(** Whatever an Update answers, the collection afterwards holds the same
    ids in the same order, and differs from the collection before in at
    most one entry: the first one carrying the id, rewritten with the
    payload. *)
Theorem update_touches_one_entry (w : World) (mood_id : string)
        (mood_data : MoodEntryCreate.t) :
  ids (snd (respond (update_mood_entry mood_id mood_data) w)) = ids w /\
  (mood_entries (snd (respond (update_mood_entry mood_id mood_data) w))
     = mood_entries w \/
   exists before old after,
     mood_entries w = (before ++ old :: after)%list /\
     (forall x, In x before -> Document.id x <> mood_id) /\
     Document.id old = mood_id /\
     mood_entries (snd (respond (update_mood_entry mood_id mood_data) w)) =
       (before ++
        Document.make mood_id (MoodEntryCreate.mood mood_data)
                      (MoodEntryCreate.mood_emoji mood_data)
                      (MoodEntryCreate.notes mood_data)
                      (MoodEntryCreate.date mood_data)
                      (datetime.isoformat (clock w (ticks w)))
        :: after)%list).
Proof.
  destruct (update_effect w mood_id mood_data) as (_ & _ & _ & [E|E]).
  - unfold ids. rewrite E. split; [reflexivity | left; reflexivity].
  - unfold ids. rewrite E. split; [apply update_one_ids|].
    destruct (update_one_shape (Collection.id_is mood_id)
                (SetFields.make (MoodEntryCreate.mood mood_data)
                                (MoodEntryCreate.mood_emoji mood_data)
                                (MoodEntryCreate.notes mood_data)
                                (MoodEntryCreate.date mood_data)
                                (datetime.isoformat (clock w (ticks w))))
                (mood_entries w))
      as [->|(before & old & after & Hw & Hb & Ho & ->)].
    + left. reflexivity.
    + right. exists before, old, after. apply String.eqb_eq in Ho.
      repeat split; try assumption.
      * intros x Hx Heq. apply Hb in Hx. apply String.eqb_neq in Hx. contradiction.
      * unfold SetFields.apply. cbn. rewrite Ho. reflexivity.
Qed.

(** Whatever a Delete answers, it takes at most one entry out of the
    collection, the first one carrying the id, and leaves the others as
    they were and in their order. *)
Theorem delete_removes_at_most_one (w : World) (mood_id : string) :
  mood_entries (snd (respond (delete_mood_entry mood_id) w)) = mood_entries w \/
  exists before d after,
    mood_entries w = (before ++ d :: after)%list /\
    (forall x, In x before -> Document.id x <> mood_id) /\
    Document.id d = mood_id /\
    mood_entries (snd (respond (delete_mood_entry mood_id) w))
      = (before ++ after)%list.
Proof.
  destruct (delete_effect w mood_id) as (_ & _ & _ & [E|E]).
  - left. exact E.
  - rewrite E.
    destruct (delete_one_removed (Collection.id_is mood_id) (mood_entries w))
      as [->|(before & d & after & Hw & Hb & Hd & ->)].
    + left. reflexivity.
    + right. exists before, d, after. apply String.eqb_eq in Hd.
      repeat split; try assumption.
      intros x Hx Heq. apply Hb in Hx. apply String.eqb_neq in Hx. contradiction.
Qed.
